(** * ntrip_client: NMEA sentence validation and the NTRIP session engine

    A shallow embedding of [ntrip_client/nmea_parser.py] and
    [ntrip_client/ntrip_client.py].

    - Python [str] values are lists of characters; a character is an [ascii],
      i.e. a code point below 256 (the handshake response is decoded as
      ISO-8859-1, and NMEA sentences are ASCII lines).  [bytes] values are
      lists of [Byte.byte].
    - Python integers are [Z]; seconds are an abstract type with the
      subtraction and the comparison that the watchdog uses.
    - A call either returns, raises, or runs out of the fuel that bounds a
      loop or a recursion: see [outcome].  A method is a function of the
      object and of the history of the calls to the transport; the transport
      answers each call from the history, so it is any deterministic
      environment.
    - [socket.socket], [settimeout] and [time.sleep] are taken to return; the
      calls that the source wraps in [try] either go through or fail, as the
      transport says; the TLS set-up, which is not in a [try], raises when
      the transport says so.
    - The log callables only emit diagnostics and are not modelled.
    - [rtcm_parser.py] is not among the sources: the frame parser is a
      parameter. *)

From Stdlib Require Import ZArith List Ascii String Bool Lia.
Import ListNotations.

Open Scope Z_scope.

(** ** Python values and builtins used by the two modules *)

Module Py.

(** The exceptions that leave a function of the two modules. *)
Inductive exn : Type :=
| TypeError
| ValueError
| IndexError
| OverflowError
| SSLError
| Exception_ (message : string).

Inductive outcome (A : Type) : Type :=
| Returns (a : A)
| Raises (e : exn)
| Diverges.

Arguments Returns {A} a.
Arguments Raises {A} e.
Arguments Diverges {A}.

Definition returned {A : Type} (o : outcome A) : bool :=
  match o with
  | Returns _ => true
  | _ => false
  end.

Definition diverged {A : Type} (o : outcome A) : bool :=
  match o with
  | Diverges => true
  | _ => false
  end.

Definition str : Type := list ascii.

Definition lit (s : string) : str := list_ascii_of_string s.

Definition ord (c : ascii) : Z := Z.of_nat (nat_of_ascii c).

Definition chr (n : nat) : ascii := ascii_of_nat n.

Definition len {A : Type} (s : list A) : Z := Z.of_nat (List.length s).

Definition CR : ascii := chr 13.
Definition LF : ascii := chr 10.
Definition CRLF : str := [CR; LF].

Fixpoint str_eqb (a b : str) : bool :=
  match a, b with
  | [], [] => true
  | x :: a', y :: b' => Ascii.eqb x y && str_eqb a' b'
  | _, _ => false
  end.

(** [s.startswith(p)] *)
Fixpoint startswith (p s : str) : bool :=
  match p, s with
  | [], _ => true
  | x :: p', y :: s' => Ascii.eqb x y && startswith p' s'
  | _ :: _, [] => false
  end.

(** [sub in s] on strings: [sub] occurs in [s] as a substring. *)
Fixpoint str_in (sub s : str) : bool :=
  startswith sub s ||
  match s with
  | [] => false
  | _ :: s' => str_in sub s'
  end.

(** [s[n:]] and [s[:n]] for a non-negative [n]. *)
Definition slice_from {A : Type} (n : nat) (s : list A) : list A := skipn n s.
Definition slice_to {A : Type} (n : nat) (s : list A) : list A := firstn n s.

(** [s[-n:]] and [s[:-n]] for a positive [n]: the last [n] items (all of
    [s] when it is shorter), and what precedes them. *)
Definition slice_last {A : Type} (n : nat) (s : list A) : list A :=
  skipn (List.length s - n) s.
Definition slice_but_last {A : Type} (n : nat) (s : list A) : list A :=
  firstn (List.length s - n) s.

(** The split of [s] at the last occurrence of [sep], when there is one. *)
Fixpoint rpartition (sep : ascii) (s : str) : option (str * str) :=
  match s with
  | [] => None
  | c :: r =>
      match rpartition sep r with
      | Some (a, b) => Some (c :: a, b)
      | None => if Ascii.eqb c sep then Some ([], r) else None
      end
  end.

(** [s.rsplit(sep, 1)] for a one-character separator. *)
Definition rsplit1 (sep : ascii) (s : str) : list str :=
  match rpartition sep s with
  | Some (a, b) => [a; b]
  | None => [s]
  end.

(** *** [int(s, 16)]

    CPython first maps a non-ASCII string to ASCII
    ([_PyUnicode_TransformDecimalAndSpaceToASCII]): Unicode white space
    becomes a blank, Unicode decimal digits become ASCII digits (below 256
    there are none but the ASCII ones), and the first other character at or
    above 127 becomes a question mark that ends the string.  The result is
    parsed by [PyLong_FromString]: C white space, a sign, a [0x] prefix,
    hexadecimal digits with single underscores between them, C white
    space, end. *)

Definition is_ascii (c : ascii) : bool := (nat_of_ascii c <? 128)%nat.

(** [Py_ISSPACE] *)
Definition is_c_space (c : ascii) : bool :=
  let n := nat_of_ascii c in
  ((9 <=? n) && (n <=? 13) || (n =? 32))%nat.

(** [Py_UNICODE_ISSPACE] on code points below 256. *)
Definition is_unicode_space (c : ascii) : bool :=
  let n := nat_of_ascii c in
  ((9 <=? n) && (n <=? 13) || (28 <=? n) && (n <=? 32)
   || (n =? 133) || (n =? 160))%nat.

Fixpoint transform_decimal_and_space (s : str) : str :=
  match s with
  | [] => []
  | c :: r =>
      if (nat_of_ascii c <? 127)%nat then c :: transform_decimal_and_space r
      else if is_unicode_space c then " "%char :: transform_decimal_and_space r
      else ["?"%char]
  end.

Definition to_ascii_digits (s : str) : str :=
  if forallb is_ascii s then s else transform_decimal_and_space s.

Definition hex_digit_value (c : ascii) : option Z :=
  let n := nat_of_ascii c in
  if ((48 <=? n) && (n <=? 57))%nat then Some (Z.of_nat n - 48)
  else if ((97 <=? n) && (n <=? 102))%nat then Some (Z.of_nat n - 87)
  else if ((65 <=? n) && (n <=? 70))%nat then Some (Z.of_nat n - 55)
  else None.

Fixpoint skip_c_space (s : str) : str :=
  match s with
  | c :: r => if is_c_space c then skip_c_space r else s
  | [] => []
  end.

(** The digit scan: [prev_us] tells that the previous character was an
    underscore, [acc] is the value so far.  It stops at the first character
    that is neither a digit nor an underscore and returns the rest. *)
Fixpoint scan_hex (prev_us : bool) (acc : Z) (s : str) : option (Z * str) :=
  match s with
  | c :: r =>
      if Ascii.eqb c "_"%char then
        if prev_us then None else scan_hex true acc r
      else
        match hex_digit_value c with
        | Some d => scan_hex false (16 * acc + d) r
        | None => if prev_us then None else Some (acc, s)
        end
  | [] => if prev_us then None else Some (acc, [])
  end.

Definition strip_sign (s : str) : Z * str :=
  match s with
  | c :: r =>
      if Ascii.eqb c "+"%char then (1, r)
      else if Ascii.eqb c "-"%char then (-1, r)
      else (1, s)
  | [] => (1, [])
  end.

Definition strip_hex_prefix (s : str) : str :=
  match s with
  | z :: x :: r =>
      if Ascii.eqb z "0"%char && (Ascii.eqb x "x"%char || Ascii.eqb x "X"%char) then
        match r with
        | u :: r' => if Ascii.eqb u "_"%char then r' else r
        | [] => r
        end
      else s
  | _ => s
  end.

(** [int(s, 16)]: [None] stands for [ValueError]. *)
Definition int16 (s : str) : option Z :=
  let '(sign, s1) := strip_sign (skip_c_space (to_ascii_digits s)) in
  let s2 := strip_hex_prefix s1 in
  match s2 with
  | [] => None
  | c :: _ =>
      if Ascii.eqb c "_"%char then None
      else
        match scan_hex false 0 s2 with
        | None => None
        | Some (v, rest) =>
            if (List.length rest <? List.length s2)%nat then
              match skip_c_space rest with
              | [] => Some (sign * v)
              | _ :: _ => None
              end
            else None
        end
  end.

(** *** [bytes] *)

Definition bytes : Type := list Byte.byte.

Definition byte_of_code (n : nat) : Byte.byte := byte_of_ascii (ascii_of_nat n).

(** [b.decode('ISO-8859-1')]: every byte is the character of that code. *)
Definition decode_latin1 (b : bytes) : str := map ascii_of_byte b.

(** [s.encode('utf-8')] for characters below 256: one byte below 128, two
    bytes from there on. *)
Definition encode_utf8 (s : str) : bytes :=
  flat_map
    (fun c =>
       let n := nat_of_ascii c in
       if (n <? 128)%nat then [byte_of_ascii c]
       else [byte_of_code (192 + n / 64); byte_of_code (128 + n mod 64)])
    s.

(** [base64.b64encode(b).decode('utf-8')] *)
Definition b64_alphabet : str :=
  lit "ABCDEFGHIJKLMNOPQRSTUVWXYZabcdefghijklmnopqrstuvwxyz0123456789+/".

Definition b64_char (n : nat) : ascii := nth n b64_alphabet "="%char.

Fixpoint b64encode_codes (l : list nat) : str :=
  match l with
  | [] => []
  | [a] =>
      [b64_char (a / 4); b64_char (a mod 4 * 16); "="%char; "="%char]
  | [a; b] =>
      [b64_char (a / 4); b64_char (a mod 4 * 16 + b / 16);
       b64_char (b mod 16 * 4); "="%char]
  | a :: b :: c :: r =>
      [b64_char (a / 4); b64_char (a mod 4 * 16 + b / 16);
       b64_char (b mod 16 * 4 + c / 64); b64_char (c mod 64)]
      ++ b64encode_codes r
  end%nat.

Definition b64encode (b : bytes) : str :=
  b64encode_codes (map (fun x => nat_of_ascii (ascii_of_byte x)) b).

(** *** Keyword arguments

    A call [f(k1=v1, ...)] of a function that has no [**kwargs] parameter
    raises [TypeError] when some keyword is not one of its parameters. *)
Definition keywords_accepted (parameters keywords : list string) : bool :=
  forallb (fun k => existsb (String.eqb k) parameters) keywords.

(** *** Stateful code

    A method is a function of the state it runs in.  The state after a
    raise is the state at the raise: Python does not roll back. *)
Definition M (S A : Type) : Type := S -> outcome A * S.

Definition ret {S A : Type} (a : A) : M S A := fun s => (Returns a, s).

Definition raise {S A : Type} (e : exn) : M S A := fun s => (Raises e, s).

Definition diverge {S A : Type} : M S A := fun s => (Diverges, s).

Definition lift {S A : Type} (o : outcome A) : M S A := fun s => (o, s).

Definition bind {S A B : Type} (m : M S A) (k : A -> M S B) : M S B :=
  fun s =>
    match m s with
    | (Returns a, s') => k a s'
    | (Raises e, s') => (Raises e, s')
    | (Diverges, s') => (Diverges, s')
    end.

Definition get {S : Type} : M S S := fun s => (Returns s, s).

Definition modify {S : Type} (f : S -> S) : M S unit := fun s => (Returns tt, f s).

Declare Scope py_scope.
Delimit Scope py_scope with py.

Notation "x <- m ;; k" := (bind m (fun x => k))
  (at level 61, m at next level, right associativity) : py_scope.
Notation "m ;; k" := (bind m (fun _ => k))
  (at level 61, right associativity) : py_scope.

End Py.

Import Py.

(** ** nmea_parser.py *)

Module NMEA.

Definition NMEA_DEFAULT_MAX_LENGTH : Z := 82.
Definition NMEA_DEFAULT_MIN_LENGTH : Z := 3.
Definition _NMEA_CHECKSUM_SEPERATOR : ascii := "*"%char.

Record NMEAParser : Type := mkNMEAParser {
  nmea_max_length : Z;
  nmea_min_length : Z
}.

(** [NMEAParser.__init__(self, logerr=..., logwarn=..., loginfo=...,
    logdebug=...)], called with the given keywords. *)
Definition __init___parameters : list string :=
  ["logerr"; "logwarn"; "loginfo"; "logdebug"]%string.

Definition __init__ (keywords : list string) : outcome NMEAParser :=
  if keywords_accepted __init___parameters keywords then
    Returns {| nmea_max_length := NMEA_DEFAULT_MAX_LENGTH;
               nmea_min_length := NMEA_DEFAULT_MIN_LENGTH |}
  else Raises TypeError.

(** The [for char in data[1:]] loop. *)
Definition calculate_checksum (data : str) : Z :=
  fold_left (fun calculated_checksum char => Z.lxor calculated_checksum (ord char))
            (slice_from 1 data) 0.

Definition is_valid_sentence (self : NMEAParser) (sentence : str) : outcome bool :=
  if len sentence >? nmea_max_length self then Returns false
  else if len sentence <? nmea_min_length self then Returns false
  else
    match sentence with
    | [] => Raises IndexError
    | first :: _ =>
        if negb (Ascii.eqb first "$"%char) && negb (Ascii.eqb first "!"%char)
        then Returns false
        else if negb (str_eqb (slice_last 2 sentence) CRLF) then Returns false
        else if negb (str_in [_NMEA_CHECKSUM_SEPERATOR] sentence) then Returns false
        else
          match rsplit1 _NMEA_CHECKSUM_SEPERATOR sentence with
          | [data; expected_checksum_str] =>
              match int16 expected_checksum_str with
              | None => Raises ValueError
              | Some expected_checksum =>
                  if negb (expected_checksum =? calculate_checksum data)
                  then Returns false
                  else Returns true
              end
          | _ => Raises ValueError
          end
    end.

End NMEA.

(** ** ntrip_client.py *)

Module NTRIP.

Local Open Scope py_scope.

Definition _CHUNK_SIZE : Z := 1024.
Definition _SOURCETABLE_RESPONSES : list str := [lit "SOURCETABLE 200 OK"].
Definition _SUCCESS_RESPONSES : list str :=
  [lit "ICY 200 OK"; lit "HTTP/1.0 200 OK"; lit "HTTP/1.1 200 OK"].
Definition _UNAUTHORIZED_RESPONSES : list str := [lit "401"].

(** [any(marker in response for marker in markers)] *)
Definition any_in (markers : list str) (response : str) : bool :=
  existsb (fun marker => str_in marker response) markers.

Definition DEFAULT_RECONNECT_ATTEMPT_MAX : Z := 10.
Definition DEFAULT_RECONNECT_ATEMPT_WAIT_SECONDS : Z := 5.
Definition DEFAULT_RTCM_TIMEOUT_SECONDS : Z := 4.

(** A socket object: the plain socket opened by the [fd]-th [connect()], or
    its TLS wrapper. *)
Inductive socket : Type :=
| Socket (fd : nat)
| SSLSocket (fd : nat).

Inductive ssl_context : Type :=
| SSLContext.

(** What the TLS set-up of [connect()] does: it goes through, or one of
    [ssl.create_default_context], [load_cert_chain] /
    [load_verify_locations], [wrap_socket] raises. *)
Inductive tls_result : Type :=
| TlsOk
| TlsContextError
| TlsLoadError
| TlsWrapError.

Inductive recv_result : Type :=
| RecvBytes (data : bytes)
| RecvError.

(** The outcomes of the peek of [_socket_is_open]. *)
Inductive peek_result : Type :=
| PeekBytes (data : bytes)
| PeekBlockingIOError
| PeekConnectionResetError
| PeekTimeout
| PeekError.

Section Session.

(** Seconds, as [time.time()] returns them and as the two durations of the
    configuration give them: the watchdog only subtracts and compares. *)
Variable Time : Type.
Variable time_zero : Time.
Variable time_sub : Time -> Time -> Time.
Variable time_geb : Time -> Time -> bool.

(** [rtcm_parser.py] is not part of the sources: the frame parser is a
    state with a constructor that may raise and a [parse] method. *)
Variable Frame : Type.
Variable RTCMParser : Type.
Variable RTCMParser_init : outcome RTCMParser.
Variable RTCMParser_parse : RTCMParser -> bytes -> list Frame * RTCMParser.

(** *** The transport

    Every call that reaches the socket, the TLS layer or the clock is an
    event.  The history lists the events so far, latest first, and the
    transport answers each call from the history.  [time.sleep] answers
    from the duration alone: with the exception it raises on a duration it
    does not accept ([ValueError] on a negative one), with [None] when it
    sleeps and returns. *)
Inductive event : Type :=
| SocketConnect (ok : bool)
| TlsWrap (r : tls_result)
| Send (payload : bytes) (ok : bool)
| Recv (r : recv_result)
| Peek (r : peek_result)
| Select (readable : bool)
| Clock (t : Time)
| Sleep (seconds : Time)
| Close.

Definition history : Type := list event.

Record Transport : Type := mkTransport {
  socket_connect : history -> bool;
  tls_wrap : history -> tls_result;
  socket_send : history -> bytes -> bool;
  socket_recv : history -> recv_result;
  socket_peek : history -> peek_result;
  select_readable : history -> bool;
  time_time : history -> Time;
  time_sleep : Time -> option exn
}.

Variable transport : Transport.

Record NTRIPClient : Type := mkNTRIPClient {
  _host : str;
  _port : Z;
  _mountpoint : str;
  _ntrip_version : option str;
  _basic_credentials : option str;
  _raw_socket : option socket;
  _server_socket : option socket;
  rtcm_parser : RTCMParser;
  nmea_parser : NMEA.NMEAParser;
  ssl : bool;
  _ssl_context : option ssl_context;
  cert : option str;
  key : option str;
  ca_cert : option str;
  _shutdown : bool;
  _connected : bool;
  _reconnect_attempt_count : Z;
  _nmea_send_failed_count : Z;
  _nmea_send_failed_max : Z;
  _read_zero_bytes_count : Z;
  _read_zero_bytes_max : Z;
  _first_rtcm_received : bool;
  _recv_rtcm_last_packet_timestamp : Time;
  reconnect_attempt_max : Z;
  reconnect_attempt_wait_seconds : Time;
  rtcm_timeout_seconds : Time
}.

(** Attribute assignment [self.<attribute> = v], for the attributes that
    are assigned after [__init__]. *)

Definition set_raw_socket (v : option socket) (self : NTRIPClient) : NTRIPClient :=
  {|
    _host := _host self; _port := _port self;
    _mountpoint := _mountpoint self;
    _ntrip_version := _ntrip_version self;
    _basic_credentials := _basic_credentials self; _raw_socket := v;
    _server_socket := _server_socket self;
    rtcm_parser := rtcm_parser self; nmea_parser := nmea_parser self;
    ssl := ssl self; _ssl_context := _ssl_context self;
    cert := cert self; key := key self; ca_cert := ca_cert self;
    _shutdown := _shutdown self; _connected := _connected self;
    _reconnect_attempt_count := _reconnect_attempt_count self;
    _nmea_send_failed_count := _nmea_send_failed_count self;
    _nmea_send_failed_max := _nmea_send_failed_max self;
    _read_zero_bytes_count := _read_zero_bytes_count self;
    _read_zero_bytes_max := _read_zero_bytes_max self;
    _first_rtcm_received := _first_rtcm_received self;
    _recv_rtcm_last_packet_timestamp := _recv_rtcm_last_packet_timestamp self;
    reconnect_attempt_max := reconnect_attempt_max self;
    reconnect_attempt_wait_seconds := reconnect_attempt_wait_seconds self;
    rtcm_timeout_seconds := rtcm_timeout_seconds self
  |}.

Definition set_server_socket (v : option socket) (self : NTRIPClient) : NTRIPClient :=
  {|
    _host := _host self; _port := _port self;
    _mountpoint := _mountpoint self;
    _ntrip_version := _ntrip_version self;
    _basic_credentials := _basic_credentials self;
    _raw_socket := _raw_socket self; _server_socket := v;
    rtcm_parser := rtcm_parser self; nmea_parser := nmea_parser self;
    ssl := ssl self; _ssl_context := _ssl_context self;
    cert := cert self; key := key self; ca_cert := ca_cert self;
    _shutdown := _shutdown self; _connected := _connected self;
    _reconnect_attempt_count := _reconnect_attempt_count self;
    _nmea_send_failed_count := _nmea_send_failed_count self;
    _nmea_send_failed_max := _nmea_send_failed_max self;
    _read_zero_bytes_count := _read_zero_bytes_count self;
    _read_zero_bytes_max := _read_zero_bytes_max self;
    _first_rtcm_received := _first_rtcm_received self;
    _recv_rtcm_last_packet_timestamp := _recv_rtcm_last_packet_timestamp self;
    reconnect_attempt_max := reconnect_attempt_max self;
    reconnect_attempt_wait_seconds := reconnect_attempt_wait_seconds self;
    rtcm_timeout_seconds := rtcm_timeout_seconds self
  |}.

Definition set_rtcm_parser (v : RTCMParser) (self : NTRIPClient) : NTRIPClient :=
  {|
    _host := _host self; _port := _port self;
    _mountpoint := _mountpoint self;
    _ntrip_version := _ntrip_version self;
    _basic_credentials := _basic_credentials self;
    _raw_socket := _raw_socket self;
    _server_socket := _server_socket self; rtcm_parser := v;
    nmea_parser := nmea_parser self; ssl := ssl self;
    _ssl_context := _ssl_context self; cert := cert self;
    key := key self; ca_cert := ca_cert self;
    _shutdown := _shutdown self; _connected := _connected self;
    _reconnect_attempt_count := _reconnect_attempt_count self;
    _nmea_send_failed_count := _nmea_send_failed_count self;
    _nmea_send_failed_max := _nmea_send_failed_max self;
    _read_zero_bytes_count := _read_zero_bytes_count self;
    _read_zero_bytes_max := _read_zero_bytes_max self;
    _first_rtcm_received := _first_rtcm_received self;
    _recv_rtcm_last_packet_timestamp := _recv_rtcm_last_packet_timestamp self;
    reconnect_attempt_max := reconnect_attempt_max self;
    reconnect_attempt_wait_seconds := reconnect_attempt_wait_seconds self;
    rtcm_timeout_seconds := rtcm_timeout_seconds self
  |}.

Definition set_ssl_context (v : option ssl_context) (self : NTRIPClient) : NTRIPClient :=
  {|
    _host := _host self; _port := _port self;
    _mountpoint := _mountpoint self;
    _ntrip_version := _ntrip_version self;
    _basic_credentials := _basic_credentials self;
    _raw_socket := _raw_socket self;
    _server_socket := _server_socket self;
    rtcm_parser := rtcm_parser self; nmea_parser := nmea_parser self;
    ssl := ssl self; _ssl_context := v; cert := cert self;
    key := key self; ca_cert := ca_cert self;
    _shutdown := _shutdown self; _connected := _connected self;
    _reconnect_attempt_count := _reconnect_attempt_count self;
    _nmea_send_failed_count := _nmea_send_failed_count self;
    _nmea_send_failed_max := _nmea_send_failed_max self;
    _read_zero_bytes_count := _read_zero_bytes_count self;
    _read_zero_bytes_max := _read_zero_bytes_max self;
    _first_rtcm_received := _first_rtcm_received self;
    _recv_rtcm_last_packet_timestamp := _recv_rtcm_last_packet_timestamp self;
    reconnect_attempt_max := reconnect_attempt_max self;
    reconnect_attempt_wait_seconds := reconnect_attempt_wait_seconds self;
    rtcm_timeout_seconds := rtcm_timeout_seconds self
  |}.

Definition set_shutdown (v : bool) (self : NTRIPClient) : NTRIPClient :=
  {|
    _host := _host self; _port := _port self;
    _mountpoint := _mountpoint self;
    _ntrip_version := _ntrip_version self;
    _basic_credentials := _basic_credentials self;
    _raw_socket := _raw_socket self;
    _server_socket := _server_socket self;
    rtcm_parser := rtcm_parser self; nmea_parser := nmea_parser self;
    ssl := ssl self; _ssl_context := _ssl_context self;
    cert := cert self; key := key self; ca_cert := ca_cert self;
    _shutdown := v; _connected := _connected self;
    _reconnect_attempt_count := _reconnect_attempt_count self;
    _nmea_send_failed_count := _nmea_send_failed_count self;
    _nmea_send_failed_max := _nmea_send_failed_max self;
    _read_zero_bytes_count := _read_zero_bytes_count self;
    _read_zero_bytes_max := _read_zero_bytes_max self;
    _first_rtcm_received := _first_rtcm_received self;
    _recv_rtcm_last_packet_timestamp := _recv_rtcm_last_packet_timestamp self;
    reconnect_attempt_max := reconnect_attempt_max self;
    reconnect_attempt_wait_seconds := reconnect_attempt_wait_seconds self;
    rtcm_timeout_seconds := rtcm_timeout_seconds self
  |}.

Definition set_connected (v : bool) (self : NTRIPClient) : NTRIPClient :=
  {|
    _host := _host self; _port := _port self;
    _mountpoint := _mountpoint self;
    _ntrip_version := _ntrip_version self;
    _basic_credentials := _basic_credentials self;
    _raw_socket := _raw_socket self;
    _server_socket := _server_socket self;
    rtcm_parser := rtcm_parser self; nmea_parser := nmea_parser self;
    ssl := ssl self; _ssl_context := _ssl_context self;
    cert := cert self; key := key self; ca_cert := ca_cert self;
    _shutdown := _shutdown self; _connected := v;
    _reconnect_attempt_count := _reconnect_attempt_count self;
    _nmea_send_failed_count := _nmea_send_failed_count self;
    _nmea_send_failed_max := _nmea_send_failed_max self;
    _read_zero_bytes_count := _read_zero_bytes_count self;
    _read_zero_bytes_max := _read_zero_bytes_max self;
    _first_rtcm_received := _first_rtcm_received self;
    _recv_rtcm_last_packet_timestamp := _recv_rtcm_last_packet_timestamp self;
    reconnect_attempt_max := reconnect_attempt_max self;
    reconnect_attempt_wait_seconds := reconnect_attempt_wait_seconds self;
    rtcm_timeout_seconds := rtcm_timeout_seconds self
  |}.

Definition set_reconnect_attempt_count (v : Z) (self : NTRIPClient) : NTRIPClient :=
  {|
    _host := _host self; _port := _port self;
    _mountpoint := _mountpoint self;
    _ntrip_version := _ntrip_version self;
    _basic_credentials := _basic_credentials self;
    _raw_socket := _raw_socket self;
    _server_socket := _server_socket self;
    rtcm_parser := rtcm_parser self; nmea_parser := nmea_parser self;
    ssl := ssl self; _ssl_context := _ssl_context self;
    cert := cert self; key := key self; ca_cert := ca_cert self;
    _shutdown := _shutdown self; _connected := _connected self;
    _reconnect_attempt_count := v;
    _nmea_send_failed_count := _nmea_send_failed_count self;
    _nmea_send_failed_max := _nmea_send_failed_max self;
    _read_zero_bytes_count := _read_zero_bytes_count self;
    _read_zero_bytes_max := _read_zero_bytes_max self;
    _first_rtcm_received := _first_rtcm_received self;
    _recv_rtcm_last_packet_timestamp := _recv_rtcm_last_packet_timestamp self;
    reconnect_attempt_max := reconnect_attempt_max self;
    reconnect_attempt_wait_seconds := reconnect_attempt_wait_seconds self;
    rtcm_timeout_seconds := rtcm_timeout_seconds self
  |}.

Definition set_nmea_send_failed_count (v : Z) (self : NTRIPClient) : NTRIPClient :=
  {|
    _host := _host self; _port := _port self;
    _mountpoint := _mountpoint self;
    _ntrip_version := _ntrip_version self;
    _basic_credentials := _basic_credentials self;
    _raw_socket := _raw_socket self;
    _server_socket := _server_socket self;
    rtcm_parser := rtcm_parser self; nmea_parser := nmea_parser self;
    ssl := ssl self; _ssl_context := _ssl_context self;
    cert := cert self; key := key self; ca_cert := ca_cert self;
    _shutdown := _shutdown self; _connected := _connected self;
    _reconnect_attempt_count := _reconnect_attempt_count self;
    _nmea_send_failed_count := v;
    _nmea_send_failed_max := _nmea_send_failed_max self;
    _read_zero_bytes_count := _read_zero_bytes_count self;
    _read_zero_bytes_max := _read_zero_bytes_max self;
    _first_rtcm_received := _first_rtcm_received self;
    _recv_rtcm_last_packet_timestamp := _recv_rtcm_last_packet_timestamp self;
    reconnect_attempt_max := reconnect_attempt_max self;
    reconnect_attempt_wait_seconds := reconnect_attempt_wait_seconds self;
    rtcm_timeout_seconds := rtcm_timeout_seconds self
  |}.

Definition set_read_zero_bytes_count (v : Z) (self : NTRIPClient) : NTRIPClient :=
  {|
    _host := _host self; _port := _port self;
    _mountpoint := _mountpoint self;
    _ntrip_version := _ntrip_version self;
    _basic_credentials := _basic_credentials self;
    _raw_socket := _raw_socket self;
    _server_socket := _server_socket self;
    rtcm_parser := rtcm_parser self; nmea_parser := nmea_parser self;
    ssl := ssl self; _ssl_context := _ssl_context self;
    cert := cert self; key := key self; ca_cert := ca_cert self;
    _shutdown := _shutdown self; _connected := _connected self;
    _reconnect_attempt_count := _reconnect_attempt_count self;
    _nmea_send_failed_count := _nmea_send_failed_count self;
    _nmea_send_failed_max := _nmea_send_failed_max self;
    _read_zero_bytes_count := v;
    _read_zero_bytes_max := _read_zero_bytes_max self;
    _first_rtcm_received := _first_rtcm_received self;
    _recv_rtcm_last_packet_timestamp := _recv_rtcm_last_packet_timestamp self;
    reconnect_attempt_max := reconnect_attempt_max self;
    reconnect_attempt_wait_seconds := reconnect_attempt_wait_seconds self;
    rtcm_timeout_seconds := rtcm_timeout_seconds self
  |}.

Definition set_first_rtcm_received (v : bool) (self : NTRIPClient) : NTRIPClient :=
  {|
    _host := _host self; _port := _port self;
    _mountpoint := _mountpoint self;
    _ntrip_version := _ntrip_version self;
    _basic_credentials := _basic_credentials self;
    _raw_socket := _raw_socket self;
    _server_socket := _server_socket self;
    rtcm_parser := rtcm_parser self; nmea_parser := nmea_parser self;
    ssl := ssl self; _ssl_context := _ssl_context self;
    cert := cert self; key := key self; ca_cert := ca_cert self;
    _shutdown := _shutdown self; _connected := _connected self;
    _reconnect_attempt_count := _reconnect_attempt_count self;
    _nmea_send_failed_count := _nmea_send_failed_count self;
    _nmea_send_failed_max := _nmea_send_failed_max self;
    _read_zero_bytes_count := _read_zero_bytes_count self;
    _read_zero_bytes_max := _read_zero_bytes_max self;
    _first_rtcm_received := v;
    _recv_rtcm_last_packet_timestamp := _recv_rtcm_last_packet_timestamp self;
    reconnect_attempt_max := reconnect_attempt_max self;
    reconnect_attempt_wait_seconds := reconnect_attempt_wait_seconds self;
    rtcm_timeout_seconds := rtcm_timeout_seconds self
  |}.

Definition set_recv_rtcm_last_packet_timestamp (v : Time) (self : NTRIPClient) : NTRIPClient :=
  {|
    _host := _host self; _port := _port self;
    _mountpoint := _mountpoint self;
    _ntrip_version := _ntrip_version self;
    _basic_credentials := _basic_credentials self;
    _raw_socket := _raw_socket self;
    _server_socket := _server_socket self;
    rtcm_parser := rtcm_parser self; nmea_parser := nmea_parser self;
    ssl := ssl self; _ssl_context := _ssl_context self;
    cert := cert self; key := key self; ca_cert := ca_cert self;
    _shutdown := _shutdown self; _connected := _connected self;
    _reconnect_attempt_count := _reconnect_attempt_count self;
    _nmea_send_failed_count := _nmea_send_failed_count self;
    _nmea_send_failed_max := _nmea_send_failed_max self;
    _read_zero_bytes_count := _read_zero_bytes_count self;
    _read_zero_bytes_max := _read_zero_bytes_max self;
    _first_rtcm_received := _first_rtcm_received self;
    _recv_rtcm_last_packet_timestamp := v;
    reconnect_attempt_max := reconnect_attempt_max self;
    reconnect_attempt_wait_seconds := reconnect_attempt_wait_seconds self;
    rtcm_timeout_seconds := rtcm_timeout_seconds self
  |}.

(** *** [__init__] *)

Definition __init__
    (host : str) (port : Z) (mountpoint : str) (ntrip_version : option str)
    (username password : option str)
    (reconnect_attempt_max : Z)
    (reconnect_attempt_wait_seconds rtcm_timeout_seconds : Time)
    (nmea_min_length nmea_max_length : Z)
    (use_ssl : bool) (cert key ca_cert : option str)
  : outcome NTRIPClient :=
  let basic_credentials :=
    match username, password with
    | Some u, Some p => Some (b64encode (encode_utf8 (u ++ lit ":" ++ p)))
    | _, _ => None
    end in
  match RTCMParser_init with
  | Returns the_rtcm_parser =>
      match NMEA.__init__
              ["nmea_min_length"; "nmea_max_length";
               "logerr"; "logwarn"; "loginfo"; "logdebug"]%string with
      | Returns the_nmea_parser =>
          Returns
            {| _host := host;
               _port := port;
               _mountpoint := mountpoint;
               _ntrip_version := ntrip_version;
               _basic_credentials := basic_credentials;
               _raw_socket := None;
               _server_socket := None;
               rtcm_parser := the_rtcm_parser;
               nmea_parser := the_nmea_parser;
               ssl := use_ssl;
               _ssl_context := None;
               cert := cert;
               key := key;
               ca_cert := ca_cert;
               _shutdown := false;
               _connected := false;
               _reconnect_attempt_count := 0;
               _nmea_send_failed_count := 0;
               _nmea_send_failed_max := 5;
               _read_zero_bytes_count := 0;
               _read_zero_bytes_max := 5;
               _first_rtcm_received := false;
               _recv_rtcm_last_packet_timestamp := time_zero;
               reconnect_attempt_max := reconnect_attempt_max;
               reconnect_attempt_wait_seconds := reconnect_attempt_wait_seconds;
               rtcm_timeout_seconds := rtcm_timeout_seconds |}
      | Raises e => Raises e
      | Diverges => Diverges
      end
  | Raises e => Raises e
  | Diverges => Diverges
  end.

(** *** Methods

    A method runs on the object and the history. *)
Definition state : Type := (NTRIPClient * history)%type.

Definition method (A : Type) : Type := M state A.

Definition self_ : method NTRIPClient := fun s => (Returns (fst s), s).

Definition assign (f : NTRIPClient -> NTRIPClient) : method unit :=
  modify (fun s : state => (f (fst s), snd s)).

Definition emit (e : event) : method unit :=
  modify (fun s : state => (fst s, e :: snd s)).

(** The calls to the transport: ask for the answer, record the event. *)
Definition do_socket_connect : method bool :=
  fun s => let ok := socket_connect transport (snd s) in
           (Returns ok, (fst s, SocketConnect ok :: snd s)).

Definition do_tls_wrap : method tls_result :=
  fun s => let r := tls_wrap transport (snd s) in
           (Returns r, (fst s, TlsWrap r :: snd s)).

Definition do_send (payload : bytes) : method bool :=
  fun s => let ok := socket_send transport (snd s) payload in
           (Returns ok, (fst s, Send payload ok :: snd s)).

Definition do_recv : method recv_result :=
  fun s => let r := socket_recv transport (snd s) in
           (Returns r, (fst s, Recv r :: snd s)).

Definition do_peek : method peek_result :=
  fun s => let r := socket_peek transport (snd s) in
           (Returns r, (fst s, Peek r :: snd s)).

Definition do_select : method bool :=
  fun s => let r := select_readable transport (snd s) in
           (Returns r, (fst s, Select r :: snd s)).

Definition do_time : method Time :=
  fun s => let t := time_time transport (snd s) in
           (Returns t, (fst s, Clock t :: snd s)).

(** [time.sleep(seconds)]: a refused duration raises before any wait. *)
Definition do_sleep (seconds : Time) : method unit :=
  match time_sleep transport seconds with
  | Some e => raise e
  | None => emit (Sleep seconds)
  end.

(** The number of sockets opened so far names the next one. *)
Definition sockets_opened (h : history) : nat :=
  List.length (filter (fun e => match e with SocketConnect _ => true | _ => false end) h).

(** [self._ntrip_version in (None, '')] *)
Definition version_unset (v : option str) : bool :=
  match v with
  | None => true
  | Some s => str_eqb s []
  end.

Definition _form_request (self : NTRIPClient) : bytes :=
  let request_str :=
    if negb (version_unset (_ntrip_version self)) then
      lit "GET /" ++ _mountpoint self ++ lit " HTTP/1.0" ++ CRLF
      ++ lit "Ntrip-Version: "
      ++ match _ntrip_version self with Some v => v | None => [] end ++ CRLF
      ++ lit "User-Agent: NTRIP ntrip_client_ros" ++ CRLF
    else
      lit "GET /" ++ _mountpoint self ++ lit " HTTP/1.0" ++ CRLF
      ++ lit "User-Agent: NTRIP ntrip_client_ros" ++ CRLF in
  let request_str :=
    match _basic_credentials self with
    | Some credentials =>
        request_str ++ lit "Authorization: Basic " ++ credentials ++ CRLF
    | None => request_str
    end in
  encode_utf8 (request_str ++ CRLF).

(** The TLS block of [connect]: none of its calls is in a [try]. *)
Definition wrap_ssl : method unit :=
  r <- do_tls_wrap ;;
  match r with
  | TlsContextError => raise SSLError
  | TlsLoadError =>
      assign (set_ssl_context (Some SSLContext)) ;;
      raise SSLError
  | TlsWrapError =>
      assign (set_ssl_context (Some SSLContext)) ;;
      self <- self_ ;;
      assign (set_raw_socket (_server_socket self)) ;;
      raise SSLError
  | TlsOk =>
      assign (set_ssl_context (Some SSLContext)) ;;
      self <- self_ ;;
      assign (set_raw_socket (_server_socket self)) ;;
      assign (set_server_socket
                match _server_socket self with
                | Some (Socket fd) | Some (SSLSocket fd) => Some (SSLSocket fd)
                | None => None
                end)
  end.

Definition connect : method bool :=
  s <- get ;;
  assign (set_server_socket (Some (Socket (sockets_opened (snd s))))) ;;
  ok <- do_socket_connect ;;
  if negb ok then ret false
  else
    self <- self_ ;;
    (if ssl self then wrap_ssl else ret tt) ;;
    self <- self_ ;;
    ok <- do_send (_form_request self) ;;
    if negb ok then ret false
    else
      r <- do_recv ;;
      match r with
      | RecvError => ret false
      | RecvBytes data =>
          let response := decode_latin1 data in
          (if any_in _SUCCESS_RESPONSES response
           then assign (set_connected true) else ret tt) ;;
          self <- self_ ;;
          let known_error :=
            if any_in _SOURCETABLE_RESPONSES response then true
            else if any_in _UNAUTHORIZED_RESPONSES response then true
            else if negb (_connected self) && version_unset (_ntrip_version self)
                 then true
                 else false in
          if known_error || negb (_connected self) then ret false
          else ret true
      end.

(** Shutting the sockets down and closing them cannot fail the caller:
    both [try] blocks catch every exception. *)
Definition disconnect : method unit :=
  assign (set_connected false) ;;
  self <- self_ ;;
  match _server_socket self, _raw_socket self with
  | None, None => ret tt
  | _, _ => emit Close
  end.

Definition exhausted : exn :=
  Exception_ "Reconnect was attempted 0 times, but never succeeded".

(** The [while not self._shutdown] loop, one unit of fuel per iteration. *)
Fixpoint reconnect_loop (fuel : nat) : method unit :=
  self <- self_ ;;
  if _shutdown self then ret tt
  else
    match fuel with
    | O => diverge
    | S fuel' =>
        assign (fun self =>
                  set_reconnect_attempt_count (_reconnect_attempt_count self + 1) self) ;;
        disconnect ;;
        connect_success <- connect ;;
        self <- self_ ;;
        if negb connect_success
           && (_reconnect_attempt_count self <? reconnect_attempt_max self)
        then
          do_sleep (reconnect_attempt_wait_seconds self) ;;
          reconnect_loop fuel'
        else if _reconnect_attempt_count self >=? reconnect_attempt_max self
        then
          assign (set_reconnect_attempt_count 0) ;;
          raise exhausted
        else if connect_success then
          assign (set_reconnect_attempt_count 0) ;;
          ret tt
        else reconnect_loop fuel'
    end.

(** The loop increments the counter in every iteration and goes round
    again only below the maximum: this many iterations are enough. *)
Definition reconnect_bound (self : NTRIPClient) : nat :=
  S (Z.to_nat (reconnect_attempt_max self - _reconnect_attempt_count self)).

Definition reconnect : method unit :=
  self <- self_ ;;
  if _connected self then reconnect_loop (reconnect_bound self)
  else ret tt.

(** The escape-sequence form of the terminator: backslash, r, backslash, n. *)
Definition escaped_CRLF : str := ["\"; "r"; "\"; "n"]%char.

Definition terminate (sentence : str) : str :=
  if str_eqb (slice_last 4 sentence) escaped_CRLF
  then slice_but_last 4 sentence ++ CRLF
  else if negb (str_eqb (slice_last 2 sentence) CRLF)
       then sentence ++ CRLF
       else sentence.

(** [send_nmea] calls itself: [depth] bounds the nesting of the calls. *)
Fixpoint send_nmea (depth : nat) (sentence : str) : method unit :=
  match depth with
  | O => diverge
  | S depth' =>
      self <- self_ ;;
      if negb (_connected self) then ret tt
      else
        let sentence := terminate sentence in
        valid <- lift (NMEA.is_valid_sentence (nmea_parser self) sentence) ;;
        if negb valid then ret tt
        else
          sent <- match _server_socket self with
                  | Some _ => do_send (encode_utf8 sentence)
                  | None => ret false
                  end ;;
          if sent then ret tt
          else
            assign (fun self =>
                      set_nmea_send_failed_count (_nmea_send_failed_count self + 1) self) ;;
            self <- self_ ;;
            if _nmea_send_failed_count self >=? _nmea_send_failed_max self
            then
              reconnect ;;
              assign (set_nmea_send_failed_count 0) ;;
              send_nmea depth' sentence
            else ret tt
  end.

Definition _socket_is_open : method bool :=
  r <- do_peek ;;
  match r with
  | PeekBytes data => ret (negb (len data =? 0))
  | PeekBlockingIOError => ret true
  | PeekConnectionResetError => ret false
  | PeekTimeout => ret true
  | PeekError => ret false
  end.

(** The [while True] read loop of [recv_rtcm], one unit of fuel per chunk:
    [Some data] when it leaves by [break], [None] when it reconnects and
    makes [recv_rtcm] return the empty list. *)
Fixpoint read_available (fuel : nat) (data : bytes) : method (option bytes) :=
  match fuel with
  | O => diverge
  | S fuel' =>
      r <- do_recv ;;
      match r with
      | RecvBytes chunk =>
          let data := data ++ chunk in
          if len chunk <? _CHUNK_SIZE then ret (Some data)
          else read_available fuel' data
      | RecvError =>
          open <- _socket_is_open ;;
          if negb open then reconnect ;; ret None
          else ret (Some data)
      end
  end.

(** The first block of [recv_rtcm]: reconnect when corrections were
    received before and none came for [rtcm_timeout_seconds]. *)
Definition rtcm_watchdog : method unit :=
  self <- self_ ;;
  now <- do_time ;;
  if time_geb (time_sub now (rtcm_timeout_seconds self))
              (_recv_rtcm_last_packet_timestamp self)
     && _first_rtcm_received self
  then reconnect ;; assign (set_first_rtcm_received false)
  else ret tt.

Definition recv_rtcm (fuel : nat) : method (list Frame) :=
  self <- self_ ;;
  if negb (_connected self) then ret []
  else
    rtcm_watchdog ;;
    self <- self_ ;;
    match _server_socket self with
    | None => raise TypeError
    | Some _ =>
        readable <- do_select ;;
        if negb readable then ret []
        else
          read <- read_available fuel [] ;;
          match read with
          | None => ret []
          | Some data =>
              if len data =? 0 then
                assign (fun self =>
                          set_read_zero_bytes_count (_read_zero_bytes_count self + 1) self) ;;
                self <- self_ ;;
                if _read_zero_bytes_count self >=? _read_zero_bytes_max self
                then
                  reconnect ;;
                  assign (set_read_zero_bytes_count 0) ;;
                  ret []
                else ret []
              else
                now <- do_time ;;
                assign (set_recv_rtcm_last_packet_timestamp now) ;;
                assign (set_first_rtcm_received true) ;;
                self <- self_ ;;
                let (frames, parser) := RTCMParser_parse (rtcm_parser self) data in
                assign (set_rtcm_parser parser) ;;
                ret frames
          end
    end.

Definition shutdown : method unit :=
  assign (set_shutdown true) ;;
  disconnect.

End Session.

Arguments mkNTRIPClient {Time RTCMParser}.
Arguments _host {Time RTCMParser} _.
Arguments _port {Time RTCMParser} _.
Arguments _mountpoint {Time RTCMParser} _.
Arguments _ntrip_version {Time RTCMParser} _.
Arguments _basic_credentials {Time RTCMParser} _.
Arguments _raw_socket {Time RTCMParser} _.
Arguments _server_socket {Time RTCMParser} _.
Arguments rtcm_parser {Time RTCMParser} _.
Arguments nmea_parser {Time RTCMParser} _.
Arguments ssl {Time RTCMParser} _.
Arguments _ssl_context {Time RTCMParser} _.
Arguments cert {Time RTCMParser} _.
Arguments key {Time RTCMParser} _.
Arguments ca_cert {Time RTCMParser} _.
Arguments _shutdown {Time RTCMParser} _.
Arguments _connected {Time RTCMParser} _.
Arguments _reconnect_attempt_count {Time RTCMParser} _.
Arguments _nmea_send_failed_count {Time RTCMParser} _.
Arguments _nmea_send_failed_max {Time RTCMParser} _.
Arguments _read_zero_bytes_count {Time RTCMParser} _.
Arguments _read_zero_bytes_max {Time RTCMParser} _.
Arguments _first_rtcm_received {Time RTCMParser} _.
Arguments _recv_rtcm_last_packet_timestamp {Time RTCMParser} _.
Arguments reconnect_attempt_max {Time RTCMParser} _.
Arguments reconnect_attempt_wait_seconds {Time RTCMParser} _.
Arguments rtcm_timeout_seconds {Time RTCMParser} _.
Arguments set_raw_socket {Time RTCMParser} v self.
Arguments set_server_socket {Time RTCMParser} v self.
Arguments set_rtcm_parser {Time RTCMParser} v self.
Arguments set_ssl_context {Time RTCMParser} v self.
Arguments set_shutdown {Time RTCMParser} v self.
Arguments set_connected {Time RTCMParser} v self.
Arguments set_reconnect_attempt_count {Time RTCMParser} v self.
Arguments set_nmea_send_failed_count {Time RTCMParser} v self.
Arguments set_read_zero_bytes_count {Time RTCMParser} v self.
Arguments set_first_rtcm_received {Time RTCMParser} v self.
Arguments set_recv_rtcm_last_packet_timestamp {Time RTCMParser} v self.
Arguments SocketConnect {Time} ok.
Arguments TlsWrap {Time} r.
Arguments Send {Time} payload ok.
Arguments Recv {Time} r.
Arguments Peek {Time} r.
Arguments Select {Time} readable.
Arguments Clock {Time} t.
Arguments Sleep {Time} seconds.
Arguments Close {Time}.
Arguments mkTransport {Time}.
Arguments socket_connect {Time} _.
Arguments tls_wrap {Time} _.
Arguments socket_send {Time} _.
Arguments socket_recv {Time} _.
Arguments socket_peek {Time} _.
Arguments select_readable {Time} _.
Arguments time_time {Time} _.
Arguments time_sleep {Time} _.
Arguments self_ {Time RTCMParser}.
Arguments assign {Time RTCMParser}.
Arguments emit {Time RTCMParser}.
Arguments do_socket_connect {Time RTCMParser} transport.
Arguments do_tls_wrap {Time RTCMParser} transport.
Arguments do_send {Time RTCMParser} transport.
Arguments do_recv {Time RTCMParser} transport.
Arguments do_peek {Time RTCMParser} transport.
Arguments do_select {Time RTCMParser} transport.
Arguments do_time {Time RTCMParser} transport.
Arguments do_sleep {Time RTCMParser} transport seconds.
Arguments sockets_opened {Time} h.
Arguments _form_request {Time RTCMParser} self.
Arguments __init__ {Time} time_zero {RTCMParser} RTCMParser_init.
Arguments wrap_ssl {Time RTCMParser} transport _.
Arguments connect {Time RTCMParser} transport _.
Arguments reconnect {Time RTCMParser} transport _.
Arguments _socket_is_open {Time RTCMParser} transport _.
Arguments rtcm_watchdog {Time} time_sub time_geb {RTCMParser} transport _.
Arguments disconnect {Time RTCMParser} _.
Arguments shutdown {Time RTCMParser} _.
Arguments reconnect_loop {Time RTCMParser} transport fuel _.
Arguments reconnect_bound {Time RTCMParser} self.
Arguments send_nmea {Time RTCMParser} transport depth sentence _.
Arguments read_available {Time RTCMParser} transport fuel data _.
Arguments recv_rtcm {Time} time_sub time_geb {Frame RTCMParser} RTCMParser_parse transport fuel _.

End NTRIP.

(** * Notions used to state the properties *)

Module NMEASpec.

Import NMEA.

(** The exclusive-or of the codes of the characters of [span]. *)
Fixpoint xor_of (span : str) : Z :=
  match span with
  | [] => 0
  | c :: span' => Z.lxor (ord c) (xor_of span')
  end.

(** The sentences that reach the checksum check. *)
Definition well_framed (self : NMEAParser) (sentence : str) : Prop :=
  nmea_min_length self <= len sentence <= nmea_max_length self
  /\ (exists rest, sentence = "$"%char :: rest \/ sentence = "!"%char :: rest)
  /\ (exists front, sentence = front ++ CRLF)
  /\ In "*"%char sentence.

(** The parser that [NMEAParser.__init__] builds. *)
Definition default_parser : NMEAParser :=
  {| nmea_max_length := NMEA_DEFAULT_MAX_LENGTH;
     nmea_min_length := NMEA_DEFAULT_MIN_LENGTH |}.

(** A sentence with the checksum of its body, 4B. *)
Definition GPGGA : str := lit "$GPGGA,1*4B" ++ CRLF.

End NMEASpec.

Module NTRIPSpec.

Import NTRIP.

Local Open Scope py_scope.

Section Notions.

Context {Time RTCMParser : Type}.

Variable transport : Transport Time.

(** What [connect] leaves alone: everything but the two sockets, the TLS
    context and the connection status. *)
Definition session_part (self : NTRIPClient Time RTCMParser) : NTRIPClient Time RTCMParser :=
  set_connected false
    (set_ssl_context None (set_raw_socket None (set_server_socket None self))).

(** What [reconnect] leaves alone: the above but the attempt counter. *)
Definition reconnect_part (self : NTRIPClient Time RTCMParser) : NTRIPClient Time RTCMParser :=
  set_reconnect_attempt_count 0 (session_part self).

(** The number of [connect()] attempts between two histories: every attempt
    opens one socket. *)
Definition attempts (before after : history Time) : Z :=
  Z.of_nat (sockets_opened after) - Z.of_nat (sockets_opened before).

(** The history at the moment [connect] sends its request, when the socket
    connects and the TLS set-up, if any, goes through. *)
Definition request_history (self : NTRIPClient Time RTCMParser) (h : history Time)
  : history Time :=
  if ssl self then TlsWrap TlsOk :: SocketConnect true :: h
  else SocketConnect true :: h.

(** The handshake of [connect], run in state [st], goes through and reads
    [data] as the response of the caster. *)
Definition responds (st : state Time RTCMParser) (data : bytes) : Prop :=
  let self := fst st in
  let h := snd st in
  socket_connect transport h = true
  /\ (ssl self = true -> tls_wrap transport (SocketConnect true :: h) = TlsOk)
  /\ socket_send transport (request_history self h) (_form_request self) = true
  /\ socket_recv transport (Send (_form_request self) true :: request_history self h)
     = RecvBytes data.

(** The state in which an iteration of the reconnect loop calls [connect]:
    the counter incremented, the session disconnected. *)
Definition loop_entry (st : state Time RTCMParser) : state Time RTCMParser :=
  snd (disconnect
         (set_reconnect_attempt_count (_reconnect_attempt_count (fst st) + 1) (fst st),
          snd st)).

(** Every [connect()] of a disconnected session returns failure, in every
    state and after every history. *)
Definition refuses : Prop :=
  forall st : state Time RTCMParser,
    _connected (fst st) = false -> fst (connect transport st) = Returns false.

(** The state in which the loop goes round again after a failed attempt
    that left it in [s]: it has slept for the configured wait. *)
Definition after_wait (s : state Time RTCMParser) : state Time RTCMParser :=
  (fst s, Sleep (reconnect_attempt_wait_seconds (fst s)) :: snd s).

(** Each of the first [n] attempts of the reconnect loop entered in [st]
    finds a [connect()] that returns failure; nothing is said of any other
    [connect()]. *)
Fixpoint attempts_fail (n : nat) (st : state Time RTCMParser) : Prop :=
  match n with
  | O => True
  | S n' =>
      fst (connect transport (loop_entry st)) = Returns false
      /\ attempts_fail n' (after_wait (snd (connect transport (loop_entry st))))
  end.

(** The attempts that separate the counter from the maximum, one at least. *)
Definition attempts_due (self : NTRIPClient Time RTCMParser) : Z :=
  Z.max 1 (reconnect_attempt_max self - _reconnect_attempt_count self).

(** One attempt of [send_nmea] to send the sentence, without the retry: the
    answer tells that the send failed and the failure count reached the
    maximum. *)
Definition send_attempt (sentence : str) : method Time RTCMParser bool :=
  self <- self_ ;;
  if negb (_connected self) then ret false
  else
    let sentence := terminate sentence in
    valid <- lift (NMEA.is_valid_sentence (nmea_parser self) sentence) ;;
    if negb valid then ret false
    else
      sent <- match _server_socket self with
              | Some _ => do_send transport (encode_utf8 sentence)
              | None => ret false
              end ;;
      if sent then ret false
      else
        assign (fun self =>
                  set_nmea_send_failed_count (_nmea_send_failed_count self + 1) self) ;;
        self <- self_ ;;
        ret (_nmea_send_failed_count self >=? _nmea_send_failed_max self).

(** [send_nmea] as a bounded sequence: attempt; when the failures reached the
    maximum reconnect once, reset the count and attempt once more; give up. *)
Definition send_nmea_bounded (sentence : str) : method Time RTCMParser unit :=
  again <- send_attempt sentence ;;
  if again then
    reconnect transport ;;
    assign (set_nmea_send_failed_count 0) ;;
    _ <- send_attempt (terminate sentence) ;;
    ret tt
  else ret tt.

End Notions.

(** *** Concrete sessions and casters

    Time in whole seconds, frames as the bytes of one read, a frame parser
    without state. *)

Definition parse_whole (p : unit) (data : bytes) : list bytes * unit := ([data], p).

(** The session that [__init__] describes for a caster on port 2101, with the
    default lengths, waits and thresholds. *)
Definition session (ntrip_version : option str) (reconnect_attempt_max : Z) (use_ssl : bool)
  : NTRIPClient Z unit :=
  {| _host := lit "caster.example";
     _port := 2101;
     _mountpoint := lit "MOUNT";
     _ntrip_version := ntrip_version;
     _basic_credentials := None;
     _raw_socket := None;
     _server_socket := None;
     rtcm_parser := tt;
     nmea_parser := NMEASpec.default_parser;
     ssl := use_ssl;
     _ssl_context := None;
     cert := None;
     key := None;
     ca_cert := None;
     _shutdown := false;
     _connected := false;
     _reconnect_attempt_count := 0;
     _nmea_send_failed_count := 0;
     _nmea_send_failed_max := 5;
     _read_zero_bytes_count := 0;
     _read_zero_bytes_max := 5;
     _first_rtcm_received := false;
     _recv_rtcm_last_packet_timestamp := 0;
     reconnect_attempt_max := reconnect_attempt_max;
     reconnect_attempt_wait_seconds := DEFAULT_RECONNECT_ATEMPT_WAIT_SECONDS;
     rtcm_timeout_seconds := DEFAULT_RTCM_TIMEOUT_SECONDS |}.

(** The same session once a first [connect()] went through. *)
Definition connected_session (ntrip_version : option str) (reconnect_attempt_max : Z)
    (use_ssl : bool) : state Z unit :=
  (set_connected true
     (set_server_socket (Some (Socket 0))
        (session ntrip_version reconnect_attempt_max use_ssl)),
   [SocketConnect true]).

Definition encode_latin1 (s : str) : bytes := map byte_of_ascii s.

(** [time.sleep] on whole seconds, as CPython 3 has it: the duration is
    converted to nanoseconds in 64 bits, then tested for its sign. *)
Definition sleep_seconds (seconds : Z) : option exn :=
  if (seconds <? -9223372036) || (9223372036 <? seconds) then Some OverflowError
  else if seconds <? 0 then Some ValueError
  else None.

(** A caster that answers every read with [reply]; [reachable], [tls] and
    [accepts] give the fate of every connection, TLS set-up and send; the
    clock shows the number of events so far. *)
Definition caster (reachable : history Z -> bool) (tls : history Z -> tls_result)
    (accepts : history Z -> bytes -> bool) (reply : history Z -> bytes) : Transport Z :=
  {| socket_connect := reachable;
     tls_wrap := tls;
     socket_send := accepts;
     socket_recv := fun h => RecvBytes (reply h);
     socket_peek := fun _ => PeekBlockingIOError;
     select_readable := fun _ => true;
     time_time := fun h => Z.of_nat (List.length h);
     time_sleep := sleep_seconds |}.

Definition plain_caster (reply : str) : Transport Z :=
  caster (fun _ => true) (fun _ => TlsOk) (fun _ _ => true) (fun _ => encode_latin1 reply).

(** A host that refuses every connection. *)
Definition unreachable : Transport Z :=
  {| socket_connect := fun _ => false;
     tls_wrap := fun _ => TlsOk;
     socket_send := fun _ _ => false;
     socket_recv := fun _ => RecvError;
     socket_peek := fun _ => PeekError;
     select_readable := fun _ => false;
     time_time := fun h => Z.of_nat (List.length h);
     time_sleep := sleep_seconds |}.

(** A caster that cannot be reached before the history counts ten sockets:
    for a session that has connected once, the first nine attempts of
    [reconnect] fail and the tenth goes through. *)
Definition late_caster (reply : str) : Transport Z :=
  caster (fun h => (10 <=? sockets_opened h)%nat) (fun _ => TlsOk) (fun _ _ => true)
         (fun _ => encode_latin1 reply).

(** A caster whose TLS handshake fails on the first two sockets. *)
Definition tls_flaky_caster (reply : str) : Transport Z :=
  caster (fun _ => true)
         (fun h => if (sockets_opened h <=? 2)%nat then TlsWrapError else TlsOk)
         (fun _ _ => true) (fun _ => encode_latin1 reply).

Definition reads_done (h : history Z) : nat :=
  List.length (filter (fun e => match e with Recv _ => true | _ => false end) h).

(** A caster that announces data and delivers none on the first two reads,
    then one byte per read. *)
Definition starved_caster : Transport Z :=
  caster (fun _ => true) (fun _ => TlsOk) (fun _ _ => true)
         (fun h => if (reads_done h <? 2)%nat then [] else [byte_of_code 211]).

(** A caster that takes the request of the handshake and fails every other
    send. *)
Definition is_request (payload : bytes) : bool :=
  match payload with
  | b :: _ => Ascii.eqb (ascii_of_byte b) "G"%char
  | [] => false
  end.

Definition mute_caster (reply : str) : Transport Z :=
  caster (fun _ => true) (fun _ => TlsOk) (fun _ payload => is_request payload)
         (fun _ => encode_latin1 reply).

(** A full chunk of the read loop. *)
Definition full_chunk : bytes := repeat (byte_of_code 0) 1024.

(** A caster that delivers one full chunk and then resets the connection:
    the next read fails and the peek finds the socket closed; the handshake
    of the reconnect that follows reads [reply]. *)
Definition dropping_caster (reply : str) : Transport Z :=
  {| socket_connect := fun _ => true;
     tls_wrap := fun _ => TlsOk;
     socket_send := fun _ _ => true;
     socket_recv := fun h => match reads_done h with
                             | O => RecvBytes full_chunk
                             | S O => RecvError
                             | _ => RecvBytes (encode_latin1 reply)
                             end;
     socket_peek := fun _ => PeekConnectionResetError;
     select_readable := fun _ => true;
     time_time := fun h => Z.of_nat (List.length h);
     time_sleep := sleep_seconds |}.

Definition NTRIP_2_0 : option str := Some (lit "Ntrip/2.0").

(** A connected session configured with a negative wait between attempts. *)
Definition hasty_session (attempt_max : Z) : state Z unit :=
  let self := fst (connected_session NTRIP_2_0 attempt_max false) in
  ({|
      _host := _host self;
      _port := _port self;
      _mountpoint := _mountpoint self;
      _ntrip_version := _ntrip_version self;
      _basic_credentials := _basic_credentials self;
      _raw_socket := _raw_socket self;
      _server_socket := _server_socket self;
      rtcm_parser := rtcm_parser self;
      nmea_parser := nmea_parser self;
      ssl := ssl self;
      _ssl_context := _ssl_context self;
      cert := cert self;
      key := key self;
      ca_cert := ca_cert self;
      _shutdown := _shutdown self;
      _connected := _connected self;
      _reconnect_attempt_count := _reconnect_attempt_count self;
      _nmea_send_failed_count := _nmea_send_failed_count self;
      _nmea_send_failed_max := _nmea_send_failed_max self;
      _read_zero_bytes_count := _read_zero_bytes_count self;
      _read_zero_bytes_max := _read_zero_bytes_max self;
      _first_rtcm_received := _first_rtcm_received self;
      _recv_rtcm_last_packet_timestamp := _recv_rtcm_last_packet_timestamp self;
      reconnect_attempt_max := reconnect_attempt_max self;
      reconnect_attempt_wait_seconds := -1;
      rtcm_timeout_seconds := rtcm_timeout_seconds self |},
   snd (connected_session NTRIP_2_0 attempt_max false)).

(** A connected session that counts four failed sends. *)
Definition worn_session : state Z unit :=
  (set_nmea_send_failed_count 4 (fst (connected_session NTRIP_2_0 10 false)),
   snd (connected_session NTRIP_2_0 10 false)).

(** One poll of a caster, reading at most one chunk. *)
Definition poll (transport : Transport Z) : method Z unit (list bytes) :=
  recv_rtcm Z.sub Z.geb parse_whole transport 1.

(** The state a poll is in after its watchdog block, and the one in which
    it starts to read, the socket being announced readable. *)
Definition watched (transport : Transport Z) (st : state Z unit) : state Z unit :=
  snd (rtcm_watchdog Z.sub Z.geb transport st).

Definition announced (transport : Transport Z) (st : state Z unit) : state Z unit :=
  (fst (watched transport st), Select true :: snd (watched transport st)).

Definition ICY_200_OK : str := lit "ICY 200 OK" ++ CRLF.

Definition ICY_then_sourcetable : str :=
  lit "ICY 200 OK" ++ CRLF ++ lit "SOURCETABLE 200 OK" ++ CRLF.

End NTRIPSpec.

(** * Properties *)

(** ** Facts about the Python builtins *)

Module PyFacts.

Lemma str_eqb_eq (a b : str) : str_eqb a b = true <-> a = b.
Proof.
  revert b; induction a as [|x a IH]; intros [|y b]; simpl;
    try (split; congruence).
  rewrite andb_true_iff, Ascii.eqb_eq, IH.
  split; [intros [-> ->]; reflexivity | intros E; inversion E; auto].
Qed.

Lemma str_eqb_refl (a : str) : str_eqb a a = true.
Proof. apply str_eqb_eq; reflexivity. Qed.

(** A one-character string occurs in [s] exactly when the character does. *)
Lemma str_in_char (c : ascii) (s : str) : str_in [c] s = true <-> In c s.
Proof.
  induction s as [|y s IH]; simpl.
  - split; [discriminate | tauto].
  - rewrite orb_true_iff, IH, andb_true_r, Ascii.eqb_eq.
    split; intros [H|H]; auto.
Qed.

Lemma rpartition_absent (sep : ascii) (s : str) :
  ~ In sep s -> rpartition sep s = None.
Proof.
  induction s as [|c s IH]; simpl; intros H; [reflexivity|].
  rewrite IH by tauto.
  destruct (Ascii.eqb_spec c sep) as [E|_]; [exfalso; auto | reflexivity].
Qed.

(** [rpartition] cuts at the last occurrence of the separator. *)
Lemma rpartition_last (sep : ascii) (a b : str) :
  ~ In sep b -> rpartition sep (a ++ sep :: b) = Some (a, b).
Proof.
  intros Hb; induction a as [|c a IH]; simpl.
  - rewrite rpartition_absent by assumption.
    now rewrite Ascii.eqb_refl.
  - now rewrite IH.
Qed.

(** A string in which [sep] occurs has a last occurrence of it. *)
Lemma last_occurrence (sep : ascii) (s : str) :
  In sep s -> exists a b, s = a ++ sep :: b /\ ~ In sep b.
Proof.
  induction s as [|c s IH]; simpl; [tauto|].
  intros H.
  destruct (in_dec ascii_dec sep s) as [Hin|Hnot].
  - destruct (IH Hin) as (a & b & -> & Hb).
    exists (c :: a), b; auto.
  - destruct H as [->|H]; [|contradiction].
    exists [], s; auto.
Qed.

Lemma slice_last_app {A : Type} (front back : list A) :
  slice_last (List.length back) (front ++ back) = back.
Proof.
  unfold slice_last.
  rewrite length_app, Nat.add_sub.
  rewrite skipn_app, skipn_all, Nat.sub_diag; reflexivity.
Qed.

(** The builtins on sample arguments, as CPython answers them. *)

Example int16_checksum : int16 (lit "4B" ++ CRLF) = Some 75.
Proof. reflexivity. Qed.

Example int16_prefix_sign : int16 (lit " -0X_1b ") = Some (-27).
Proof. reflexivity. Qed.

Example int16_underscores : int16 (lit "1_2") = Some 18 /\ int16 (lit "1__2") = None.
Proof. split; reflexivity. Qed.

Example int16_not_hex : int16 (lit "ZZ" ++ CRLF) = None /\ int16 CRLF = None.
Proof. split; reflexivity. Qed.

Example rsplit1_last : rsplit1 "*" (lit "a*b*c") = [lit "a*b"; lit "c"].
Proof. reflexivity. Qed.

Example rsplit1_absent : rsplit1 "*" (lit "abc") = [lit "abc"].
Proof. reflexivity. Qed.

Example b64encode_credentials :
  b64encode (encode_utf8 (lit "user:pass")) = lit "dXNlcjpwYXNz".
Proof. reflexivity. Qed.

End PyFacts.

(** ** The sentence validator *)

Module NMEAFacts.

Import NMEA NMEASpec PyFacts.

Lemma fold_xor (span : str) (acc : Z) :
  fold_left (fun x char => Z.lxor x (ord char)) span acc = Z.lxor acc (xor_of span).
Proof.
  revert acc; induction span as [|c span IH]; intros acc; simpl.
  - now rewrite Z.lxor_0_r.
  - now rewrite IH, Z.lxor_assoc.
Qed.

(** The loop skips the sentinel and folds the rest of [data]. *)
Lemma calculate_checksum_body (sentinel : ascii) (body : str) :
  calculate_checksum (sentinel :: body) = xor_of body.
Proof. unfold calculate_checksum; simpl; now rewrite fold_xor. Qed.

(** A well-framed sentence is a sentinel, a body, the last ['*'], and the
    text after it. *)
Lemma well_framed_split (self : NMEAParser) (sentence : str) :
  well_framed self sentence ->
  exists sentinel body after,
    sentence = sentinel :: body ++ "*"%char :: after
    /\ (sentinel = "$"%char \/ sentinel = "!"%char)
    /\ ~ In "*"%char after.
Proof.
  intros (_ & (rest & Hs) & _ & Hin).
  destruct (last_occurrence _ _ Hin) as (a & b & E & Hb).
  destruct a as [|sentinel body].
  - exfalso; destruct Hs as [Hs|Hs]; rewrite Hs in E; discriminate.
  - exists sentinel, body, b; repeat split; auto.
    destruct Hs as [Hs|Hs]; rewrite Hs in E; inversion E; auto.
Qed.

(** On a well-framed sentence the validator goes to the checksum check. *)
Lemma is_valid_sentence_framed (self : NMEAParser) (sentinel : ascii) (body after : str) :
  let sentence := sentinel :: body ++ "*"%char :: after in
  well_framed self sentence ->
  ~ In "*"%char after ->
  is_valid_sentence self sentence =
  match int16 after with
  | None => Raises ValueError
  | Some expected_checksum =>
      if expected_checksum =? xor_of body then Returns true else Returns false
  end.
Proof.
  intros sentence (Hlen & (rest & Hs) & (front & Hf) & Hin) Hafter.
  unfold is_valid_sentence.
  replace (len sentence >? nmea_max_length self) with false
    by (symmetry; rewrite Z.gtb_ltb; apply Z.ltb_ge; lia).
  replace (len sentence <? nmea_min_length self) with false
    by (symmetry; apply Z.ltb_ge; lia).
  assert (Hsent : sentinel = "$"%char \/ sentinel = "!"%char)
    by (destruct Hs as [Hs|Hs]; inversion Hs; auto).
  assert (Hterm : str_eqb (slice_last 2 sentence) CRLF = true).
  { rewrite Hf; change 2%nat with (List.length CRLF).
    now rewrite slice_last_app, str_eqb_refl. }
  assert (Hstar : str_in [_NMEA_CHECKSUM_SEPERATOR] sentence = true)
    by (apply str_in_char; exact Hin).
  assert (Hsplit : rsplit1 _NMEA_CHECKSUM_SEPERATOR sentence = [sentinel :: body; after]).
  { unfold rsplit1; subst sentence.
    change (sentinel :: body ++ "*"%char :: after)
      with ((sentinel :: body) ++ _NMEA_CHECKSUM_SEPERATOR :: after).
    now rewrite rpartition_last. }
  rewrite Hterm, Hstar, Hsplit; subst sentence; cbv beta iota.
  replace (negb (Ascii.eqb sentinel "$") && negb (Ascii.eqb sentinel "!")) with false
    by (destruct Hsent as [-> | ->]; reflexivity).
  cbv [negb].
  destruct (int16 after) as [expected|]; [|reflexivity].
  rewrite calculate_checksum_body.
  destruct (expected =? xor_of body); reflexivity.
Qed.

(** C4: for every sentence within the length bounds that starts with ['$']
    or ['!'], ends with CR LF and contains ['*'], the validator returns
    true exactly when the text after the last ['*'] parses, as [int(_, 16)]
    parses it, to the exclusive-or of the characters strictly between the
    sentinel and that ['*']. *)
Theorem is_valid_sentence_checksum (self : NMEAParser) (sentence : str) :
  well_framed self sentence ->
  exists sentinel body after,
    sentence = sentinel :: body ++ "*"%char :: after
    /\ ~ In "*"%char after
    /\ (is_valid_sentence self sentence = Returns true
        <-> int16 after = Some (xor_of body)).
Proof.
  intros Hwf.
  destruct (well_framed_split _ _ Hwf) as (sentinel & body & after & E & _ & Hafter).
  exists sentinel, body, after; repeat split; auto; subst sentence.
  - rewrite is_valid_sentence_framed by assumption.
    destruct (int16 after) as [v|]; [|discriminate].
    destruct (Z.eqb_spec v (xor_of body)); [congruence | discriminate].
  - intros Hint; rewrite is_valid_sentence_framed by assumption.
    now rewrite Hint, Z.eqb_refl.
Qed.

Lemma is_valid_sentence_checksum_witness :
  exists sentinel body after,
    GPGGA = sentinel :: body ++ "*"%char :: after
    /\ ~ In "*"%char after
    /\ (is_valid_sentence default_parser GPGGA = Returns true
        <-> int16 after = Some (xor_of body)).
Proof.
  apply (is_valid_sentence_checksum default_parser GPGGA).
  unfold well_framed; repeat split.
  - vm_compute; discriminate.
  - vm_compute; discriminate.
  - eexists; left; reflexivity.
  - exists (lit "$GPGGA,1*4B"); reflexivity.
  - simpl; tauto.
Defined.

(** A well-framed sentence whose checksum text does not parse makes the
    validator raise. *)
Lemma is_valid_sentence_unparseable (self : NMEAParser) (sentinel : ascii) (body after : str) :
  well_framed self (sentinel :: body ++ "*"%char :: after) ->
  ~ In "*"%char after ->
  int16 after = None ->
  is_valid_sentence self (sentinel :: body ++ "*"%char :: after) = Raises ValueError.
Proof.
  intros Hwf Hafter Hint.
  rewrite is_valid_sentence_framed by assumption.
  now rewrite Hint.
Qed.

(** C5: the sentence [$GPGGA*ZZ] with its CR LF passes the structural
    checks and carries a checksum text that is not hexadecimal; the
    validator does not return false on it, it raises [ValueError]. *)
Theorem is_valid_sentence_non_hex_raises :
  is_valid_sentence default_parser (lit "$GPGGA*ZZ" ++ CRLF) = Raises ValueError.
Proof. reflexivity. Qed.

Lemma is_valid_sentence_total (self : NMEAParser) (sentence : str) :
  diverged (is_valid_sentence self sentence) = false.
Proof.
  unfold is_valid_sentence.
  repeat match goal with
         | |- context [match ?x with _ => _ end] =>
             lazymatch x with
             | context [match _ with _ => _ end] => fail
             | _ => destruct x
             end
         end; reflexivity.
Qed.

End NMEAFacts.

(** ** The session *)

Module NTRIPFacts.

Import NTRIP NMEASpec NTRIPSpec.

Local Open Scope py_scope.

(** Unfold the monad and the transport calls of a straight-line method. *)
Ltac run :=
  cbv [connect wrap_ssl disconnect shutdown _socket_is_open
       bind ret raise diverge lift get modify assign emit self_
       do_socket_connect do_tls_wrap do_send do_recv do_peek do_select do_time do_sleep];
  cbn [fst snd].

(** Split on the innermost scrutinee of the goal. *)
Ltac split_match :=
  match goal with
  | |- context [match ?x with _ => _ end] =>
      lazymatch x with
      | context [match _ with _ => _ end] => fail
      | _ => destruct x eqn:?
      end
  end.

Ltac split_all := repeat (split_match; cbn [fst snd negb orb andb]).

Lemma geb_false (a b : Z) : a < b -> (a >=? b) = false.
Proof. intros H; rewrite Z.geb_leb; apply Z.leb_gt; exact H. Qed.

Lemma geb_true (a b : Z) : b <= a -> (a >=? b) = true.
Proof. intros H; rewrite Z.geb_leb; apply Z.leb_le; exact H. Qed.

Section Handshake.

Context {Time RTCMParser : Type}.

Variable transport : Transport Time.

Implicit Types st : state Time RTCMParser.

Local Opaque any_in version_unset.

Local Arguments _form_request : simpl never.

Lemma connect_frame st :
  session_part (fst (snd (connect transport st))) = session_part (fst st).
Proof. destruct st as [self h]; run; split_all; reflexivity. Qed.

Lemma connect_opens st :
  sockets_opened (snd (snd (connect transport st))) = S (sockets_opened (snd st)).
Proof. destruct st as [self h]; run; split_all; reflexivity. Qed.

Lemma connect_total st : diverged (fst (connect transport st)) = false.
Proof. destruct st as [self h]; run; split_all; reflexivity. Qed.

Lemma disconnect_spec st :
  fst (disconnect st) = Returns tt
  /\ fst (snd (disconnect st)) = set_connected false (fst st)
  /\ sockets_opened (snd (snd (disconnect st))) = sockets_opened (snd st).
Proof. destruct st as [self h]; run; split_all; auto. Qed.

(** The verdict of [connect] on a response. *)
Lemma connect_responds st data :
  responds transport st data ->
  let response := decode_latin1 data in
  let connected := any_in _SUCCESS_RESPONSES response || _connected (fst st) in
  fst (connect transport st)
  = Returns (connected
             && negb (any_in _SOURCETABLE_RESPONSES response)
             && negb (any_in _UNAUTHORIZED_RESPONSES response))
  /\ _connected (fst (snd (connect transport st))) = connected.
Proof.
  destruct st as [self h]; unfold responds, request_history; cbn [fst snd].
  intros (Hc & Htls & Hsend & Hrecv).
  run; rewrite Hc; cbn.
  destruct (ssl self) eqn:Hssl; cbn;
    [rewrite (Htls eq_refl); cbn
    |];
    (match goal with
     | |- context [_form_request ?x] =>
         change (_form_request x) with (_form_request self)
     end);
    rewrite Hsend; cbn; rewrite Hrecv; cbn;
    destruct (_connected self) eqn:Hconn;
    destruct (any_in _SUCCESS_RESPONSES (decode_latin1 data)),
             (any_in _SOURCETABLE_RESPONSES (decode_latin1 data)),
             (any_in _UNAUTHORIZED_RESPONSES (decode_latin1 data)),
             (version_unset (_ntrip_version self)) eqn:Hver;
    cbn; rewrite ?Hconn, ?Hver; cbn; rewrite ?Hconn, ?Hver; split; reflexivity.
Qed.

(** A response with a success marker and a sourcetable or unauthorized
    marker: [connect] returns failure and leaves the session connected. *)
Lemma connect_both_markers st data :
  responds transport st data ->
  any_in _SUCCESS_RESPONSES (decode_latin1 data) = true ->
  any_in _SOURCETABLE_RESPONSES (decode_latin1 data)
  || any_in _UNAUTHORIZED_RESPONSES (decode_latin1 data) = true ->
  fst (connect transport st) = Returns false
  /\ _connected (fst (snd (connect transport st))) = true.
Proof.
  intros Hresp Hok Herr.
  destruct (connect_responds st data Hresp) as (Hr & Hc).
  rewrite Hr, Hc, Hok; cbn [orb andb]; split; [f_equal | reflexivity].
  destruct (any_in _SOURCETABLE_RESPONSES _), (any_in _UNAUTHORIZED_RESPONSES _);
    cbn in *; congruence.
Qed.

(** Without a success marker a disconnected session stays disconnected and
    [connect] returns failure, with or without a version. *)
Lemma connect_no_marker st data :
  responds transport st data ->
  _connected (fst st) = false ->
  any_in _SUCCESS_RESPONSES (decode_latin1 data) = false ->
  fst (connect transport st) = Returns false
  /\ _connected (fst (snd (connect transport st))) = false.
Proof.
  intros Hresp Hdis Hno.
  destruct (connect_responds st data Hresp) as (Hr & Hc).
  rewrite Hr, Hc, Hno, Hdis; split; reflexivity.
Qed.

(** C3, as the code has it: on every response with a success marker and
    neither a sourcetable nor an unauthorized marker, [connect] returns
    success and marks the session connected, whether a protocol version is
    configured or not; the ambiguous-version branch is only reached without
    a success marker. *)
Theorem connect_success_marker st data :
  responds transport st data ->
  any_in _SUCCESS_RESPONSES (decode_latin1 data) = true ->
  any_in _SOURCETABLE_RESPONSES (decode_latin1 data) = false ->
  any_in _UNAUTHORIZED_RESPONSES (decode_latin1 data) = false ->
  fst (connect transport st) = Returns true
  /\ _connected (fst (snd (connect transport st))) = true.
Proof.
  intros Hresp Hok Hst Hun.
  destruct (connect_responds st data Hresp) as (Hr & Hc).
  rewrite Hr, Hc, Hok, Hst, Hun; split; reflexivity.
Qed.

End Handshake.

Section Reconnect.

Context {Time RTCMParser : Type}.

Variable transport : Transport Time.

Implicit Types st : state Time RTCMParser.

Local Opaque connect.

Lemma loop_entry_spec st :
  _connected (fst (loop_entry st)) = false
  /\ reconnect_part (fst (loop_entry st)) = reconnect_part (fst st)
  /\ _reconnect_attempt_count (fst (loop_entry st)) = _reconnect_attempt_count (fst st) + 1
  /\ sockets_opened (snd (loop_entry st)) = sockets_opened (snd st).
Proof.
  destruct st as [self h]; unfold loop_entry; run.
  split_all; cbn; auto.
Qed.

(** One iteration of the loop. *)
Lemma reconnect_loop_S fuel st :
  _shutdown (fst st) = false ->
  reconnect_loop transport (S fuel) st =
  match connect transport (loop_entry st) with
  | (Returns connect_success, s) =>
      let self := fst s in
      if negb connect_success
         && (_reconnect_attempt_count self <? reconnect_attempt_max self)
      then match time_sleep transport (reconnect_attempt_wait_seconds self) with
           | Some e => (Raises e, s)
           | None => reconnect_loop transport fuel (after_wait s)
           end
      else if _reconnect_attempt_count self >=? reconnect_attempt_max self
      then (Raises exhausted, (set_reconnect_attempt_count 0 self, snd s))
      else if connect_success
      then (Returns tt, (set_reconnect_attempt_count 0 self, snd s))
      else reconnect_loop transport fuel s
  | (Raises e, s) => (Raises e, s)
  | (Diverges, s) => (Diverges, s)
  end.
Proof.
  intros Hsh; destruct st as [self h]; cbn [fst] in Hsh.
  cbn [reconnect_loop]; unfold loop_entry.
  unfold bind at 1; unfold self_ at 1; cbn [fst snd]; rewrite Hsh.
  unfold bind at 1; unfold assign at 1, modify at 1; cbn [fst snd].
  unfold bind at 1.
  destruct (disconnect _) as [[[]|e|] s1] eqn:Hd;
    pose proof (proj1 (disconnect_spec (set_reconnect_attempt_count (_reconnect_attempt_count self + 1) self, h))) as Hr;
    rewrite Hd in Hr; cbn in Hr; try discriminate.
  cbn [snd]. unfold bind at 1.
  destruct (connect transport s1) as [[ok|e|] [self2 h2]]; try reflexivity.
  unfold bind at 1; unfold self_ at 1; cbn [fst snd].
  destruct (negb ok && _).
  - unfold bind at 1, do_sleep, after_wait; cbn [fst snd].
    destruct (time_sleep transport _); reflexivity.
  - destruct (_ >=? _); [reflexivity|].
    destruct ok; reflexivity.
Qed.

Lemma reconnect_loop_shutdown fuel st :
  _shutdown (fst st) = true -> reconnect_loop transport fuel st = (Returns tt, st).
Proof.
  intros Hsh; destruct st as [self h]; cbn [fst] in Hsh.
  destruct fuel; cbn [reconnect_loop]; unfold bind, self_; cbn [fst snd];
    rewrite Hsh; reflexivity.
Qed.

Lemma reconnect_loop_O st :
  _shutdown (fst st) = false -> reconnect_loop transport 0 st = (Diverges, st).
Proof.
  intros Hsh; destruct st as [self h]; cbn [fst] in Hsh.
  cbn [reconnect_loop]; unfold bind, self_; cbn [fst snd]; rewrite Hsh; reflexivity.
Qed.

(** What [connect] finds and leaves in an iteration of the loop. *)
Lemma loop_connect st :
  let s := snd (connect transport (loop_entry st)) in
  reconnect_part (fst s) = reconnect_part (fst st)
  /\ _reconnect_attempt_count (fst s) = _reconnect_attempt_count (fst st) + 1
  /\ sockets_opened (snd s) = S (sockets_opened (snd st)).
Proof.
  destruct (loop_entry_spec st) as (_ & Hpart & Hcount & Hopen).
  pose proof (connect_frame transport (loop_entry st)) as Hframe.
  pose proof (connect_opens transport (loop_entry st)) as Hopens.
  cbv zeta; repeat split.
  - rewrite <- Hpart; unfold reconnect_part; now rewrite Hframe.
  - rewrite <- Hcount.
    exact (f_equal _reconnect_attempt_count Hframe).
  - now rewrite Hopens, Hopen.
Qed.

Lemma reconnect_loop_frame fuel : forall st,
  reconnect_part (fst (snd (reconnect_loop transport fuel st))) = reconnect_part (fst st).
Proof.
  induction fuel as [|fuel IH]; intros st;
    destruct (_shutdown (fst st)) eqn:Hsh;
    try (rewrite reconnect_loop_shutdown by assumption; reflexivity).
  - rewrite reconnect_loop_O by assumption; reflexivity.
  - rewrite reconnect_loop_S by assumption.
    destruct (loop_connect st) as (Hpart & _).
    destruct (connect transport (loop_entry st)) as [[ok|e|] [self h]];
      cbn [fst snd] in *; try assumption.
    destruct (negb ok && _);
      [destruct (time_sleep transport _); [|rewrite IH]; exact Hpart|].
    destruct (_ >=? _); [exact Hpart|].
    destruct ok; [exact Hpart | rewrite IH; exact Hpart].
Qed.

(** The loop ends within the iterations that separate the counter from the
    maximum. *)
Lemma reconnect_loop_total fuel : forall st,
  (Z.to_nat (reconnect_attempt_max (fst st) - _reconnect_attempt_count (fst st)) < fuel)%nat ->
  diverged (fst (reconnect_loop transport fuel st)) = false.
Proof.
  induction fuel as [|fuel IH]; intros st Hfuel; [lia|].
  destruct (_shutdown (fst st)) eqn:Hsh;
    [rewrite reconnect_loop_shutdown by assumption; reflexivity|].
  rewrite reconnect_loop_S by assumption.
  destruct (loop_connect st) as (Hpart & Hcount & _).
  pose proof (connect_total transport (loop_entry st)) as Htotal.
  pose proof (f_equal reconnect_attempt_max Hpart) as Hmax; cbn in Hmax.
  destruct (connect transport (loop_entry st)) as [[ok|e|] [self h]];
    cbn [fst snd] in *; try reflexivity; try discriminate.
  destruct (Z.ltb_spec (_reconnect_attempt_count self) (reconnect_attempt_max self)) as [Hlt|Hge].
  - destruct ok; cbn [negb andb].
    + rewrite geb_false by lia.
      reflexivity.
    + destruct (time_sleep transport _); [reflexivity|].
      apply IH; unfold after_wait; cbn [fst snd]; lia.
  - rewrite andb_false_r.
    rewrite geb_true by lia.
    reflexivity.
Qed.

Theorem reconnect_total st : diverged (fst (reconnect transport st)) = false.
Proof.
  destruct st as [self h]; unfold reconnect, bind, self_, ret; cbn [fst snd].
  destruct (_connected self); [|reflexivity].
  apply reconnect_loop_total; unfold reconnect_bound; cbn [fst]; lia.
Qed.

Lemma reconnect_frame st :
  reconnect_part (fst (snd (reconnect transport st))) = reconnect_part (fst st).
Proof.
  destruct st as [self h]; unfold reconnect, bind, self_, ret; cbn [fst snd].
  destruct (_connected self); [|reflexivity].
  apply reconnect_loop_frame.
Qed.

(** A caster that refuses every connection fails every attempt. *)
Lemma refuses_attempts_fail n : forall st,
  refuses (RTCMParser := RTCMParser) transport -> attempts_fail transport n st.
Proof.
  induction n as [|n IH]; intros st Href; cbn [attempts_fail]; [exact I|].
  split; [|apply IH; exact Href].
  apply Href; exact (proj1 (loop_entry_spec st)).
Qed.

(** When each of the attempts due fails, the loop goes on until the counter
    reaches the maximum and at least once. *)
Lemma reconnect_loop_fails fuel : forall st,
  _shutdown (fst st) = false ->
  attempts_fail transport (Z.to_nat (attempts_due (fst st))) st ->
  (1 < attempts_due (fst st) ->
   time_sleep transport (reconnect_attempt_wait_seconds (fst st)) = None) ->
  (Z.to_nat (reconnect_attempt_max (fst st) - _reconnect_attempt_count (fst st) - 1) < fuel)%nat ->
  let r := reconnect_loop transport fuel st in
  fst r = Raises exhausted
  /\ attempts (snd st) (snd (snd r)) = attempts_due (fst st)
  /\ _reconnect_attempt_count (fst (snd r)) = 0.
Proof.
  induction fuel as [|fuel IH]; intros st Hsh Hfail Hsleep Hfuel; [lia|].
  cbv zeta; rewrite reconnect_loop_S by assumption.
  unfold attempts_due in *.
  replace (Z.to_nat (Z.max 1 (reconnect_attempt_max (fst st) - _reconnect_attempt_count (fst st))))
    with (S (Z.to_nat (Z.max 1 (reconnect_attempt_max (fst st)
                                 - _reconnect_attempt_count (fst st)) - 1)))
    in Hfail by lia.
  cbn [attempts_fail] in Hfail; destruct Hfail as (Hfirst & Hrest).
  destruct (loop_connect st) as (Hpart & Hcount & Hopen).
  pose proof (f_equal reconnect_attempt_max Hpart) as Hmax; cbn in Hmax.
  pose proof (f_equal reconnect_attempt_wait_seconds Hpart) as Hwait; cbn in Hwait.
  pose proof (f_equal _shutdown Hpart) as Hshut; cbn in Hshut.
  destruct (connect transport (loop_entry st)) as [[ok|e|] [self h]];
    cbn [fst snd] in *; try discriminate.
  injection Hfirst as ->; cbn [negb andb].
  destruct (Z.ltb_spec (_reconnect_attempt_count self) (reconnect_attempt_max self)) as [Hlt|Hge].
  - rewrite Hwait, Hsleep by lia.
    destruct (IH (after_wait (self, h))) as (Hr & Ha & Hc); unfold after_wait; cbn [fst snd].
    + congruence.
    + replace (Z.to_nat (Z.max 1 (reconnect_attempt_max self - _reconnect_attempt_count self)))
        with (Z.to_nat (Z.max 1 (reconnect_attempt_max (fst st)
                                  - _reconnect_attempt_count (fst st)) - 1)) by lia.
      exact Hrest.
    + intros _; rewrite Hwait; apply Hsleep; lia.
    + lia.
    + unfold after_wait in Hr, Ha, Hc; cbn [fst snd] in Hr, Ha, Hc.
      repeat split; try assumption.
      unfold attempts in *.
      change (sockets_opened (Sleep (reconnect_attempt_wait_seconds self) :: h))
        with (sockets_opened h) in Ha.
      lia.
  - rewrite geb_true by lia.
    cbn [fst snd]; repeat split; unfold attempts; lia.
Qed.

(** C7, as the code has it: the session is connected and shutdown is not
    requested; n = max(1, reconnect_attempt_max - c) attempts are due, where
    c is the counter at the call.  When each of these n [connect()] returns
    failure and, if n > 1, [time.sleep] accepts the configured wait,
    [reconnect] makes exactly n attempts, raises the exhaustion exception
    and leaves the counter at zero -- after reconnect_attempt_max attempts
    when the counter starts at zero and the maximum is at least one. *)
Theorem reconnect_refused st :
  _connected (fst st) = true ->
  _shutdown (fst st) = false ->
  attempts_fail transport (Z.to_nat (attempts_due (fst st))) st ->
  (1 < attempts_due (fst st) ->
   time_sleep transport (reconnect_attempt_wait_seconds (fst st)) = None) ->
  let r := reconnect transport st in
  fst r = Raises exhausted
  /\ attempts (snd st) (snd (snd r)) = attempts_due (fst st)
  /\ _reconnect_attempt_count (fst (snd r)) = 0.
Proof.
  intros Hconn Hsh Hfail Hsleep; destruct st as [self h]; cbn [fst snd] in *.
  unfold reconnect, bind, self_; cbn [fst snd]; rewrite Hconn.
  apply (reconnect_loop_fails (reconnect_bound self) (self, h)); auto.
  unfold reconnect_bound; cbn [fst]; lia.
Qed.

(** An attempt that fails below the maximum is followed by the wait: when
    [time.sleep] refuses the configured duration, its exception ends
    [reconnect] after this one attempt, with the counter incremented. *)
Lemma reconnect_sleep_raises st e :
  _connected (fst st) = true ->
  _shutdown (fst st) = false ->
  fst (connect transport (loop_entry st)) = Returns false ->
  _reconnect_attempt_count (fst st) + 1 < reconnect_attempt_max (fst st) ->
  time_sleep transport (reconnect_attempt_wait_seconds (fst st)) = Some e ->
  let r := reconnect transport st in
  fst r = Raises e
  /\ attempts (snd st) (snd (snd r)) = 1
  /\ _reconnect_attempt_count (fst (snd r)) = _reconnect_attempt_count (fst st) + 1.
Proof.
  intros Hconn Hsh Hfirst Hlt Hsleep; destruct st as [self h]; cbn [fst snd] in *.
  unfold reconnect, bind, self_; cbn [fst snd]; rewrite Hconn.
  unfold reconnect_bound; rewrite reconnect_loop_S by assumption.
  destruct (loop_connect (self, h)) as (Hpart & Hcount & Hopen).
  pose proof (f_equal reconnect_attempt_max Hpart) as Hmax; cbn in Hmax.
  pose proof (f_equal reconnect_attempt_wait_seconds Hpart) as Hwait; cbn in Hwait.
  destruct (connect transport (loop_entry (self, h))) as [[ok|e'|] [self' h']];
    cbn [fst snd] in *; try discriminate.
  injection Hfirst as ->; cbn [negb andb].
  replace (_reconnect_attempt_count self' <? reconnect_attempt_max self') with true
    by (symmetry; apply Z.ltb_lt; lia).
  rewrite Hwait, Hsleep; cbn [fst snd].
  repeat split; unfold attempts; lia.
Qed.

(** A [connect] that succeeds below the maximum ends the loop normally. *)
Lemma reconnect_loop_success_below fuel st :
  _shutdown (fst st) = false ->
  fst (connect transport (loop_entry st)) = Returns true ->
  _reconnect_attempt_count (fst st) + 1 < reconnect_attempt_max (fst st) ->
  let r := reconnect_loop transport (S fuel) st in
  fst r = Returns tt /\ _reconnect_attempt_count (fst (snd r)) = 0.
Proof.
  intros Hsh Hok Hlt; cbv zeta; rewrite reconnect_loop_S by assumption.
  destruct (loop_connect st) as (Hpart & Hcount & _).
  pose proof (f_equal reconnect_attempt_max Hpart) as Hmax; cbn in Hmax.
  destruct (connect transport (loop_entry st)) as [[ok|e|] [self h]];
    cbn [fst snd] in *; try discriminate.
  injection Hok as ->; cbn [negb andb].
  rewrite geb_false by lia; split; reflexivity.
Qed.

(** A [connect] that succeeds in the attempt that reaches the maximum is
    answered with the exhaustion exception. *)
Lemma reconnect_loop_success_at_max fuel st :
  _shutdown (fst st) = false ->
  fst (connect transport (loop_entry st)) = Returns true ->
  reconnect_attempt_max (fst st) <= _reconnect_attempt_count (fst st) + 1 ->
  fst (reconnect_loop transport (S fuel) st) = Raises exhausted.
Proof.
  intros Hsh Hok Hge; rewrite reconnect_loop_S by assumption.
  destruct (loop_connect st) as (Hpart & Hcount & _).
  pose proof (f_equal reconnect_attempt_max Hpart) as Hmax; cbn in Hmax.
  destruct (connect transport (loop_entry st)) as [[ok|e|] [self h]];
    cbn [fst snd] in *; try discriminate.
  injection Hok as ->; cbn [negb andb].
  rewrite geb_true by lia; reflexivity.
Qed.

End Reconnect.

(** *** The terminator of a sentence *)

Lemma slice_last_suffix {A : Type} (n : nat) (s : list A) :
  s = slice_but_last n s ++ slice_last n s.
Proof. unfold slice_but_last, slice_last; now rewrite firstn_skipn. Qed.

(** A sentence that ends with CR LF is left as it is. *)
Lemma terminate_terminated (front : str) : terminate (front ++ CRLF) = front ++ CRLF.
Proof.
  unfold terminate.
  destruct (str_eqb (slice_last 4 (front ++ CRLF)) escaped_CRLF) eqn:Hesc.
  - exfalso; apply PyFacts.str_eqb_eq in Hesc.
    pose proof (slice_last_suffix 4 (front ++ CRLF)) as Hs.
    rewrite Hesc in Hs.
    change (front ++ CRLF) with (front ++ [CR] ++ [LF]) in Hs at 1.
    change escaped_CRLF with (["\"; "r"; "\"]%char ++ ["n"%char]) in Hs.
    rewrite !app_assoc in Hs.
    apply app_inj_tail in Hs; destruct Hs as [_ Hs]; discriminate.
  - change 2%nat with (List.length CRLF).
    now rewrite PyFacts.slice_last_app, PyFacts.str_eqb_refl.
Qed.

(** Sending again sends the same line: the terminator is put once. *)
Lemma terminate_idempotent (sentence : str) :
  terminate (terminate sentence) = terminate sentence.
Proof.
  unfold terminate at 2 3.
  destruct (str_eqb (slice_last 4 sentence) escaped_CRLF);
    [apply terminate_terminated|].
  destruct (str_eqb (slice_last 2 sentence) CRLF) eqn:Hend; cbn [negb];
    [|apply terminate_terminated].
  apply PyFacts.str_eqb_eq in Hend.
  rewrite (slice_last_suffix 2 sentence), Hend.
  apply terminate_terminated.
Qed.

Section Send.

Context {Time RTCMParser : Type}.

Variable transport : Transport Time.

Implicit Types st : state Time RTCMParser.

Local Opaque reconnect NMEA.is_valid_sentence terminate encode_utf8.

(** A call of [send_nmea] is an attempt, and at the maximum a reconnect and
    the nested call. *)
Lemma send_nmea_S depth sentence st :
  send_nmea transport (S depth) sentence st =
  match send_attempt transport sentence st with
  | (Returns true, s) =>
      match reconnect transport s with
      | (Returns _, s') =>
          send_nmea transport depth (terminate sentence)
            (set_nmea_send_failed_count 0 (fst s'), snd s')
      | (Raises e, s') => (Raises e, s')
      | (Diverges, s') => (Diverges, s')
      end
  | (Returns false, s) => (Returns tt, s)
  | (Raises e, s) => (Raises e, s)
  | (Diverges, s) => (Diverges, s)
  end.
Proof.
  destruct st as [self h]; cbn [send_nmea]; unfold send_attempt.
  cbv [bind ret lift self_ assign modify do_send]; cbn [fst snd].
  destruct (_connected self); cbn [negb]; [|reflexivity].
  destruct (NMEA.is_valid_sentence _ _) as [[|]|e|]; cbn [negb]; try reflexivity.
  destruct (_server_socket self); [destruct (socket_send _ _ _)|]; cbn [fst snd];
    try reflexivity;
    destruct (_ >=? _); try reflexivity;
    destruct (reconnect transport _) as [[[]|e|] [self' h']]; reflexivity.
Qed.

(** An attempt does not ask for a retry when it started without failures on
    the count and the maximum is above one. *)
Lemma send_attempt_fresh sentence st :
  _nmea_send_failed_count (fst st) = 0 ->
  1 < _nmea_send_failed_max (fst st) ->
  fst (send_attempt transport sentence st) <> Returns true.
Proof.
  destruct st as [self h]; cbn [fst]; intros Hcount Hmax; unfold send_attempt.
  cbv [bind ret lift self_ assign modify do_send]; cbn [fst snd].
  destruct (_connected self); cbn [negb]; [|discriminate].
  destruct (NMEA.is_valid_sentence _ _) as [[|]|e|]; cbn [negb]; try discriminate.
  destruct (_server_socket self); [destruct (socket_send _ _ _)|]; cbn;
    try discriminate; rewrite Hcount, geb_false by lia; discriminate.
Qed.

Lemma send_attempt_total sentence st :
  diverged (fst (send_attempt transport sentence st)) = false.
Proof.
  destruct st as [self h]; unfold send_attempt.
  cbv [bind ret lift self_ assign modify do_send]; cbn [fst snd].
  destruct (_connected self); cbn [negb]; [|reflexivity].
  pose proof (NMEAFacts.is_valid_sentence_total (nmea_parser self) (terminate sentence)) as Hv.
  destruct (NMEA.is_valid_sentence _ _) as [[|]|e|]; cbn [negb]; try reflexivity;
    try discriminate.
  destruct (_server_socket self); [destruct (socket_send _ _ _)|]; reflexivity.
Qed.

Lemma send_attempt_frame sentence st :
  _nmea_send_failed_max (fst (snd (send_attempt transport sentence st)))
  = _nmea_send_failed_max (fst st).
Proof.
  destruct st as [self h]; unfold send_attempt.
  cbv [bind ret lift self_ assign modify do_send]; cbn [fst snd].
  destruct (_connected self); cbn [negb]; [|reflexivity].
  destruct (NMEA.is_valid_sentence _ _) as [[|]|e|]; cbn [negb]; try reflexivity.
  destruct (_server_socket self); [destruct (socket_send _ _ _)|]; reflexivity.
Qed.

(** The nested call: after the reset of the count it is one attempt. *)
Lemma send_nmea_fresh depth sentence st :
  _nmea_send_failed_count (fst st) = 0 ->
  1 < _nmea_send_failed_max (fst st) ->
  send_nmea transport (S depth) sentence st =
  (_ <- send_attempt transport sentence ;; ret tt) st.
Proof.
  intros Hcount Hmax; rewrite send_nmea_S; unfold bind, ret.
  pose proof (send_attempt_fresh sentence st Hcount Hmax) as Hfresh.
  destruct (send_attempt transport sentence st) as [[[|]|e|] s]; cbn [fst] in Hfresh;
    congruence.
Qed.

Lemma send_nmea_unrolled depth sentence st :
  1 < _nmea_send_failed_max (fst st) ->
  send_nmea transport (S (S depth)) sentence st = send_nmea_bounded transport sentence st.
Proof.
  intros Hmax; rewrite send_nmea_S; unfold send_nmea_bounded.
  unfold bind at 1.
  pose proof (send_attempt_frame sentence st) as Hframe.
  destruct (send_attempt transport sentence st) as [[[|]|e|] s]; try reflexivity.
  cbn [fst snd] in Hframe.
  unfold bind at 1.
  pose proof (reconnect_frame transport s) as Hre.
  apply (f_equal _nmea_send_failed_max) in Hre; cbn in Hre.
  destruct (reconnect transport s) as [[[]|e|] [self h]]; try reflexivity.
  cbn [fst snd] in *.
  unfold bind at 1, assign at 1, modify at 1; cbn [fst snd].
  apply send_nmea_fresh; cbn; [reflexivity | congruence].
Qed.

(** C10: with the threshold of five failures that [__init__] sets, a call of
    [send_nmea] is the bounded sequence of [send_nmea_bounded] -- an attempt,
    at most one reconnect, at most one further attempt -- whatever the
    transport does and whatever nesting is allowed beyond two; so two nested
    calls are never exceeded. *)
Theorem send_nmea_depth_two depth sentence st :
  _nmea_send_failed_max (fst st) = 5 ->
  send_nmea transport (S (S depth)) sentence st = send_nmea_bounded transport sentence st
  /\ diverged (fst (send_nmea transport 2 sentence st)) = false.
Proof.
  intros Hmax; split; [apply send_nmea_unrolled; lia|].
  rewrite send_nmea_unrolled by lia.
  unfold send_nmea_bounded, bind.
  pose proof (send_attempt_total sentence st) as H1.
  destruct (send_attempt transport sentence st) as [[[|]|e|] s]; try reflexivity;
    try discriminate.
  pose proof (reconnect_total transport s) as H2.
  destruct (reconnect transport s) as [[[]|e|] s']; try reflexivity; try discriminate.
  unfold assign, modify.
  match goal with
  | |- context [send_attempt transport ?x ?y] =>
      pose proof (send_attempt_total x y) as H3;
      destruct (send_attempt transport x y) as [[?|?|] ?]
  end; try reflexivity; discriminate.
Qed.

End Send.

Section Poll.

Context {Time Frame RTCMParser : Type}.

Variable time_sub : Time -> Time -> Time.
Variable time_geb : Time -> Time -> bool.
Variable RTCMParser_parse : RTCMParser -> bytes -> list Frame * RTCMParser.
Variable transport : Transport Time.

Implicit Types st : state Time RTCMParser.

Local Opaque reconnect.

Lemma rtcm_watchdog_frame st :
  let self := fst (snd (rtcm_watchdog time_sub time_geb transport st)) in
  _read_zero_bytes_count self = _read_zero_bytes_count (fst st)
  /\ rtcm_parser self = rtcm_parser (fst st)
  /\ _recv_rtcm_last_packet_timestamp self = _recv_rtcm_last_packet_timestamp (fst st).
Proof.
  destruct st as [self h]; unfold rtcm_watchdog.
  cbv [bind ret self_ do_time assign modify]; cbn [fst snd].
  destruct (_ && _); [|repeat split; reflexivity].
  pose proof (reconnect_frame transport (self, Clock (time_time transport h) :: h)) as Hre.
  pose proof (f_equal _read_zero_bytes_count Hre) as Hzero.
  pose proof (f_equal rtcm_parser Hre) as Hparser.
  pose proof (f_equal _recv_rtcm_last_packet_timestamp Hre) as Hstamp.
  cbn in Hzero, Hparser, Hstamp.
  destruct (reconnect transport _) as [[[]|e|] [self' h']]; cbn in *; auto.
Qed.

Lemma read_available_frame fuel : forall data st,
  reconnect_part (fst (snd (read_available transport fuel data st)))
  = reconnect_part (fst st).
Proof.
  induction fuel as [|fuel IH]; intros data [self h]; [reflexivity|].
  cbn [read_available].
  cbv [bind ret do_recv _socket_is_open do_peek]; cbn [fst snd].
  destruct (socket_recv transport h) as [chunk|].
  - destruct (len chunk <? _CHUNK_SIZE); [reflexivity|].
    rewrite IH; reflexivity.
  - assert (Hre : forall s : state Time RTCMParser,
               reconnect_part (fst (snd ((reconnect transport ;; ret (None : option bytes))%py s)))
               = reconnect_part (fst s) :> NTRIPClient Time RTCMParser).
    { intros s0; pose proof (reconnect_frame transport s0) as Hre.
      unfold bind, ret.
      destruct (reconnect transport s0) as [[[]|e|] s1]; exact Hre. }
    cbv [bind ret] in Hre.
    destruct (socket_peek transport _) as [peeked| | | |]; cbn [negb fst snd];
      try reflexivity; try (rewrite Hre; reflexivity).
    destruct (len peeked =? 0); cbn [negb]; try reflexivity.
    rewrite Hre; reflexivity.
Qed.

(** C8, as the code has it: a connected session, the watchdog block
    returns, the socket is readable and the read loop returns.  When the
    loop ends by a chunk shorter than the chunk size, or by a failed read on
    a socket that the peek finds open, with a non-empty accumulation,
    [recv_rtcm] hands these bytes to the frame parser and returns its
    frames, sets the time of the last correction to the current time and the
    flag that corrections were received, and leaves the count of empty reads
    as it was.  When the loop ends by a failed read on a socket that the
    peek finds closed, the bytes accumulated so far are dropped: after the
    reconnect [recv_rtcm] returns the empty list; parser, time of the last
    correction and count of empty reads are as before the call, the flag as
    the watchdog block left it. *)
Theorem recv_rtcm_data fuel st s1 s2 sock read :
  _connected (fst st) = true ->
  rtcm_watchdog time_sub time_geb transport st = (Returns tt, s1) ->
  _server_socket (fst s1) = Some sock ->
  select_readable transport (snd s1) = true ->
  read_available transport fuel [] (fst s1, Select true :: snd s1) = (Returns read, s2) ->
  let r := recv_rtcm time_sub time_geb RTCMParser_parse transport fuel st in
  (forall data, read = Some data -> data <> [] ->
     let parsed := RTCMParser_parse (rtcm_parser (fst st)) data in
     fst r = Returns (fst parsed)
     /\ rtcm_parser (fst (snd r)) = snd parsed
     /\ _recv_rtcm_last_packet_timestamp (fst (snd r)) = time_time transport (snd s2)
     /\ _first_rtcm_received (fst (snd r)) = true
     /\ _read_zero_bytes_count (fst (snd r)) = _read_zero_bytes_count (fst st))
  /\ (read = None ->
      r = (Returns [], s2)
      /\ rtcm_parser (fst s2) = rtcm_parser (fst st)
      /\ _recv_rtcm_last_packet_timestamp (fst s2) = _recv_rtcm_last_packet_timestamp (fst st)
      /\ _first_rtcm_received (fst s2) = _first_rtcm_received (fst s1)
      /\ _read_zero_bytes_count (fst s2) = _read_zero_bytes_count (fst st)).
Proof.
  intros Hconn Hwatch Hsock Hsel Hread.
  destruct (rtcm_watchdog_frame st) as (Hzero1 & Hparser1 & Hstamp1).
  rewrite Hwatch in Hzero1, Hparser1, Hstamp1; cbn [fst snd] in Hzero1, Hparser1, Hstamp1.
  pose proof (read_available_frame fuel [] (fst s1, Select true :: snd s1)) as Hframe.
  rewrite Hread in Hframe; cbn [fst snd] in Hframe.
  pose proof (f_equal _read_zero_bytes_count Hframe) as Hzero2.
  pose proof (f_equal rtcm_parser Hframe) as Hparser2.
  pose proof (f_equal _recv_rtcm_last_packet_timestamp Hframe) as Hstamp2.
  pose proof (f_equal _first_rtcm_received Hframe) as Hflag2.
  cbn in Hzero2, Hparser2, Hstamp2, Hflag2.
  destruct st as [self h], s1 as [self1 h1], s2 as [self2 h2]; cbn [fst snd] in *.
  assert (Hstart : forall k : option bytes -> method Time RTCMParser (list Frame),
    (self <- self_ ;;
     if negb (_connected self) then ret []
     else
       rtcm_watchdog time_sub time_geb transport ;;
       self <- self_ ;;
       match _server_socket self with
       | None => raise TypeError
       | Some _ =>
           readable <- do_select transport ;;
           if negb readable then ret []
           else read <- read_available transport fuel [] ;; k read
       end) (self, h)
    = k read (self2, h2)).
  { intros k.
    unfold bind at 1, self_ at 1; cbn [fst snd]; rewrite Hconn; cbn [negb].
    unfold bind at 1; rewrite Hwatch.
    unfold bind at 1, self_ at 1; cbn [fst snd]; rewrite Hsock.
    unfold bind at 1, do_select at 1; cbn [fst snd]; rewrite Hsel; cbn [negb].
    unfold bind at 1; rewrite Hread; reflexivity. }
  cbv zeta; split.
  - intros data -> Hdata.
    assert (Hlen : (len data =? 0) = false).
    { apply Z.eqb_neq; unfold len; destruct data; [congruence | cbn; lia]. }
    unfold recv_rtcm; rewrite Hstart, Hlen.
    cbv [bind ret do_time assign modify self_]; cbn.
    rewrite Hparser2, Hparser1.
    destruct (RTCMParser_parse (rtcm_parser self) data) as [frames parser].
    cbn; repeat split; congruence.
  - intros ->.
    unfold recv_rtcm; rewrite Hstart.
    repeat split; congruence.
Qed.

End Poll.

Section Counter.

Context {Time RTCMParser : Type}.

Variable transport : Transport Time.

Implicit Types st : state Time RTCMParser.

(** C9, as the code has it: neither [connect] nor [shutdown] assigns the
    reconnect-attempt counter; after either call, successful or not, the
    counter is what it was before, and the reset to zero is left to
    [reconnect]. *)
Theorem connect_shutdown_keep_counter st :
  _reconnect_attempt_count (fst (snd (connect transport st)))
  = _reconnect_attempt_count (fst st)
  /\ _reconnect_attempt_count (fst (snd (shutdown st)))
     = _reconnect_attempt_count (fst st).
Proof.
  split.
  - exact (f_equal _reconnect_attempt_count (connect_frame transport st)).
  - destruct st as [self h]; run; split_all; reflexivity.
Qed.

(** [shutdown] marks the session and disconnects it. *)
Lemma shutdown_spec st :
  fst (shutdown st) = Returns tt
  /\ _shutdown (fst (snd (shutdown st))) = true
  /\ _connected (fst (snd (shutdown st))) = false.
Proof. destruct st as [self h]; run; split_all; auto. Qed.

End Counter.

Section Construction.

Context {Time RTCMParser : Type}.

Variable time_zero : Time.
Variable RTCMParser_init : outcome RTCMParser.

(** [NMEAParser.__init__] has no parameter for the lengths. *)
Lemma NMEAParser_rejects_lengths :
  NMEA.__init__
    ["nmea_min_length"; "nmea_max_length"; "logerr"; "logwarn"; "loginfo"; "logdebug"]%string
  = Raises TypeError.
Proof. reflexivity. Qed.

(** C1: whatever the configuration, [NTRIPClient.__init__] does not return a
    session: the call of [NMEAParser] with the two length keywords raises
    [TypeError] (unless the construction of the frame parser failed first),
    and the parser keeps the default lengths in any case. *)
Theorem init_never_returns
    (host : str) (port : Z) (mountpoint : str) (ntrip_version username password : option str)
    (reconnect_attempt_max : Z) (reconnect_attempt_wait_seconds rtcm_timeout_seconds : Time)
    (nmea_min_length nmea_max_length : Z) (use_ssl : bool) (cert key ca_cert : option str) :
  returned
    (__init__ time_zero RTCMParser_init host port mountpoint ntrip_version username
       password reconnect_attempt_max reconnect_attempt_wait_seconds rtcm_timeout_seconds
       nmea_min_length nmea_max_length use_ssl cert key ca_cert)
  = false.
Proof.
  unfold __init__; rewrite NMEAParser_rejects_lengths.
  destruct RTCMParser_init; reflexivity.
Qed.

End Construction.

(** *** Runs of concrete sessions *)

(** C2: a disconnected session reads a response with a success marker and the
    sourcetable marker; [connect] returns failure and the session is left
    marked connected. *)
Theorem connect_failure_leaves_connected :
  let st : state Z unit := (session NTRIP_2_0 10 false, []) in
  let r := connect (plain_caster ICY_then_sourcetable) st in
  _connected (fst st) = false
  /\ fst r = Returns false
  /\ _connected (fst (snd r)) = true.
Proof. vm_compute; auto. Qed.

Lemma connect_unset_version_counterexample :
  let st : state Z unit := (session None 10 false, []) in
  let data := encode_latin1 ICY_200_OK in
  responds (plain_caster ICY_200_OK) st data
  /\ any_in _SUCCESS_RESPONSES (decode_latin1 data) = true
  /\ any_in _SOURCETABLE_RESPONSES (decode_latin1 data) = false
  /\ any_in _UNAUTHORIZED_RESPONSES (decode_latin1 data) = false
  /\ version_unset (_ntrip_version (fst st)) = true
  /\ fst (connect (plain_caster ICY_200_OK) st) = Returns true.
Proof. unfold responds; repeat split; reflexivity. Qed.

Lemma connect_success_marker_witness :
  let st : state Z unit := (session NTRIP_2_0 10 false, []) in
  fst (connect (plain_caster ICY_200_OK) st) = Returns true
  /\ _connected (fst (snd (connect (plain_caster ICY_200_OK) st))) = true.
Proof.
  apply (connect_success_marker (plain_caster ICY_200_OK)
           (session NTRIP_2_0 10 false, []) (encode_latin1 ICY_200_OK)).
  - unfold responds; repeat split; reflexivity.
  - reflexivity.
  - reflexivity.
  - reflexivity.
Defined.

(** C6: a connected session with the default maximum of ten attempts; the
    caster is unreachable nine times and answers the tenth attempt with a
    success marker.  The tenth [connect] succeeds and marks the session
    connected, and [reconnect] raises the exhaustion exception all the
    same. *)
Theorem reconnect_raises_after_success :
  let st := connected_session NTRIP_2_0 DEFAULT_RECONNECT_ATTEMPT_MAX false in
  let r := reconnect (late_caster ICY_200_OK) st in
  attempts (snd st) (snd (snd r)) = 10
  /\ hd_error (snd (snd r)) = Some (Recv (RecvBytes (encode_latin1 ICY_200_OK)))
  /\ _connected (fst (snd r)) = true
  /\ fst r = Raises exhausted.
Proof. vm_compute; auto. Qed.

(** The same with a maximum of one: the first attempt succeeds. *)
Lemma reconnect_raises_after_first_success :
  let st := connected_session NTRIP_2_0 1 false in
  fst (connect (plain_caster ICY_200_OK) (loop_entry st)) = Returns true
  /\ fst (reconnect (plain_caster ICY_200_OK) st) = Raises exhausted.
Proof. vm_compute; auto. Qed.

Lemma unreachable_refuses : refuses (RTCMParser := unit) unreachable.
Proof. intros [self h] _; reflexivity. Qed.

Lemma reconnect_attempts_counterexample :
  let st := connected_session NTRIP_2_0 0 false in
  let r := reconnect unreachable st in
  _connected (fst st) = true
  /\ _shutdown (fst st) = false
  /\ refuses (RTCMParser := unit) unreachable
  /\ reconnect_attempt_max (fst st) = 0
  /\ fst r = Raises exhausted
  /\ attempts (snd st) (snd (snd r)) = 1.
Proof.
  cbv zeta; repeat match goal with |- _ /\ _ => split end; try reflexivity.
  exact unreachable_refuses.
Qed.

(** The late caster would answer a tenth socket: it does not refuse every
    [connect()], and yet fails each of the three attempts of the run below. *)
Lemma late_caster_answers :
  ~ refuses (RTCMParser := unit) (late_caster ICY_200_OK).
Proof.
  intros Href.
  specialize (Href (session NTRIP_2_0 3 false, repeat (SocketConnect true) 10) eq_refl).
  vm_compute in Href; discriminate.
Qed.

Lemma reconnect_refused_witness :
  let st := connected_session NTRIP_2_0 3 false in
  let r := reconnect (late_caster ICY_200_OK) st in
  fst r = Raises exhausted
  /\ attempts (snd st) (snd (snd r)) = 3
  /\ _reconnect_attempt_count (fst (snd r)) = 0.
Proof.
  apply (reconnect_refused (late_caster ICY_200_OK) (connected_session NTRIP_2_0 3 false)).
  - reflexivity.
  - reflexivity.
  - vm_compute; auto.
  - intros _; reflexivity.
Defined.

(** A negative wait: the first failed attempt is followed by a
    [time.sleep] that raises [ValueError]; the counter is left at one. *)
Lemma reconnect_negative_wait :
  let st := hasty_session 3 in
  let r := reconnect unreachable st in
  reconnect_attempt_wait_seconds (fst st) = -1
  /\ fst r = Raises ValueError
  /\ attempts (snd st) (snd (snd r)) = 1
  /\ _reconnect_attempt_count (fst (snd r)) = 1.
Proof. vm_compute; auto. Qed.

Lemma recv_rtcm_counter_counterexample :
  let st := snd (poll starved_caster (snd (poll starved_caster
                  (connected_session NTRIP_2_0 10 false)))) in
  let r := poll starved_caster st in
  _connected (fst st) = true
  /\ _read_zero_bytes_count (fst st) = 2
  /\ fst r = Returns [[byte_of_code 211]]
  /\ _read_zero_bytes_count (fst (snd r)) = 2.
Proof. vm_compute; auto. Qed.

Lemma recv_rtcm_data_witness :
  let st := connected_session NTRIP_2_0 10 false in
  let data := encode_latin1 ICY_200_OK in
  let r := poll (plain_caster ICY_200_OK) st in
  let tr := dropping_caster ICY_200_OK in
  let dropped := recv_rtcm Z.sub Z.geb parse_whole tr 2 st in
  let s2 := snd (read_available tr 2 [] (announced tr st)) in
  (fst r = Returns (fst (parse_whole (rtcm_parser (fst st)) data))
   /\ rtcm_parser (fst (snd r)) = snd (parse_whole (rtcm_parser (fst st)) data)
   /\ _recv_rtcm_last_packet_timestamp (fst (snd r)) = 4
   /\ _first_rtcm_received (fst (snd r)) = true
   /\ _read_zero_bytes_count (fst (snd r)) = _read_zero_bytes_count (fst st))
  /\ (dropped = (Returns [], s2)
      /\ rtcm_parser (fst s2) = rtcm_parser (fst st)
      /\ _recv_rtcm_last_packet_timestamp (fst s2)
         = _recv_rtcm_last_packet_timestamp (fst st)
      /\ _first_rtcm_received (fst s2) = _first_rtcm_received (fst (watched tr st))
      /\ _read_zero_bytes_count (fst s2) = _read_zero_bytes_count (fst st)).
Proof.
  cbv zeta; split.
  - pose (tr := plain_caster ICY_200_OK).
    pose (st := connected_session NTRIP_2_0 10 false).
    pose (s1 := snd (rtcm_watchdog Z.sub Z.geb tr st)).
    pose (s2 := snd (read_available tr 1 [] (fst s1, Select true :: snd s1))).
    refine (proj1 (recv_rtcm_data Z.sub Z.geb parse_whole tr 1 st s1 s2 (Socket 0)
                     (Some (encode_latin1 ICY_200_OK)) _ _ _ _ _)
              (encode_latin1 ICY_200_OK) eq_refl _).
    + reflexivity.
    + reflexivity.
    + reflexivity.
    + reflexivity.
    + reflexivity.
    + discriminate.
  - assert (Hconn : _connected (fst (connected_session NTRIP_2_0 10 false)) = true)
      by (vm_compute; reflexivity).
    assert (Hwatch : rtcm_watchdog Z.sub Z.geb (dropping_caster ICY_200_OK)
                       (connected_session NTRIP_2_0 10 false)
                     = (Returns tt, watched (dropping_caster ICY_200_OK)
                                      (connected_session NTRIP_2_0 10 false)))
      by (vm_compute; reflexivity).
    assert (Hsock : _server_socket (fst (watched (dropping_caster ICY_200_OK)
                                           (connected_session NTRIP_2_0 10 false)))
                    = Some (Socket 0))
      by (vm_compute; reflexivity).
    assert (Hsel : select_readable (dropping_caster ICY_200_OK)
                     (snd (watched (dropping_caster ICY_200_OK)
                             (connected_session NTRIP_2_0 10 false))) = true)
      by (vm_compute; reflexivity).
    assert (Hread : read_available (dropping_caster ICY_200_OK) 2 []
                      (fst (watched (dropping_caster ICY_200_OK)
                              (connected_session NTRIP_2_0 10 false)),
                       Select true :: snd (watched (dropping_caster ICY_200_OK)
                                             (connected_session NTRIP_2_0 10 false)))
                    = (Returns None,
                       snd (read_available (dropping_caster ICY_200_OK) 2 []
                              (announced (dropping_caster ICY_200_OK)
                                 (connected_session NTRIP_2_0 10 false)))))
      by (vm_compute; reflexivity).
    exact (proj2 (recv_rtcm_data Z.sub Z.geb parse_whole (dropping_caster ICY_200_OK) 2
                    (connected_session NTRIP_2_0 10 false) _ _ (Socket 0) None
                    Hconn Hwatch Hsock Hsel Hread) eq_refl).
Defined.

(** The run in which read bytes are dropped: the first read delivers a full
    chunk, the second fails and the peek finds the socket closed; the
    reconnect goes through and [recv_rtcm] returns no frame, with the flag
    and the time of the last correction untouched. *)
Lemma recv_rtcm_drops_read_bytes :
  let st := connected_session NTRIP_2_0 10 false in
  let r := recv_rtcm Z.sub Z.geb parse_whole (dropping_caster ICY_200_OK) 2 st in
  fst (read_available (dropping_caster ICY_200_OK) 2 []
         (announced (dropping_caster ICY_200_OK) st)) = Returns None
  /\ nth_error (rev (snd (snd r))) 3 = Some (Recv (RecvBytes full_chunk))
  /\ nth_error (rev (snd (snd r))) 4 = Some (Recv RecvError)
  /\ nth_error (rev (snd (snd r))) 5 = Some (Peek PeekConnectionResetError)
  /\ fst r = Returns []
  /\ _connected (fst (snd r)) = true
  /\ _first_rtcm_received (fst (snd r)) = false
  /\ _recv_rtcm_last_packet_timestamp (fst (snd r)) = 0.
Proof. vm_compute; repeat split; reflexivity. Qed.

Lemma counter_after_connect_counterexample :
  let tr := tls_flaky_caster ICY_200_OK in
  let interrupted := reconnect tr (connected_session NTRIP_2_0 10 true) in
  let st := snd interrupted in
  fst interrupted = Raises SSLError
  /\ fst (connect tr st) = Returns true
  /\ _reconnect_attempt_count (fst (snd (connect tr st))) = 1
  /\ fst (shutdown st) = Returns tt
  /\ _reconnect_attempt_count (fst (snd (shutdown st))) = 1.
Proof. vm_compute; auto. Qed.

Lemma send_nmea_depth_two_witness :
  send_nmea (mute_caster ICY_200_OK) 2 GPGGA worn_session
  = send_nmea_bounded (mute_caster ICY_200_OK) GPGGA worn_session
  /\ diverged (fst (send_nmea (mute_caster ICY_200_OK) 2 GPGGA worn_session)) = false.
Proof.
  apply (send_nmea_depth_two (mute_caster ICY_200_OK) 0 GPGGA worn_session).
  reflexivity.
Defined.

(** The bound is reached: a fifth failed send makes [send_nmea] reconnect and
    call itself once. *)
Lemma send_nmea_reaches_depth_two :
  fst (send_nmea (mute_caster ICY_200_OK) 1 GPGGA worn_session) = Diverges
  /\ fst (send_nmea (mute_caster ICY_200_OK) 2 GPGGA worn_session) = Returns tt.
Proof. vm_compute; auto. Qed.

End NTRIPFacts.
